(** * Chat.jsx: the chat session controller, the CSV preview builder and the
      CSV to OHLC converter

    A shallow embedding of [src/Chat.jsx].  The React component keeps six
    pieces of state ([messages], [input], [csvFile], [loading],
    [backendStatus], [csvPreview]) and four asynchronous handlers
    ([checkBackendHealth], [handleCsvFileChange], [sendMessage],
    [uploadCSV]).  The handlers are written here in a small state and
    exception monad; [await] is sequencing, [try]/[catch] is [try_catch], and
    what the browser answers (the text of a file, the outcome of a [fetch],
    the clock) is read from an environment.

    The JavaScript built-ins the handlers call are modelled in [Module JS]:
    strings are byte strings in UTF-8 (the encoding [file.text()] decodes and
    the source file is written in), numbers are IEEE 754 binary64 values
    ([spec_float] with precision 53 and maximal exponent 1024). *)

From Stdlib Require Import List String Ascii ZArith NArith Bool Lia DecimalString.
From Stdlib Require Import Floats.SpecFloat.
Import ListNotations.

(* ================================================================= *)
(** ** JavaScript built-ins *)

Module JS.

Local Open Scope string_scope.

(** *** Strings *)

Definition code (a : ascii) : N := N_of_ascii a.

(** [WhiteSpace] and [LineTerminator] code points of ECMAScript, in UTF-8:
    one byte for TAB, LF, VT, FF, CR and SP; two bytes for U+00A0; three
    bytes for U+1680, U+2000..U+200A, U+2028, U+2029, U+202F, U+205F, U+3000
    and U+FEFF. *)
Definition ws1 (a : ascii) : bool :=
  ((9 <=? code a) && (code a <=? 13) || (code a =? 32))%N.

Definition ws2 (a b : ascii) : bool :=
  ((code a =? 194) && (code b =? 160))%N.

Definition ws3 (a b c : ascii) : bool :=
  ((code a =? 225) && (code b =? 154) && (code c =? 128)
   || (code a =? 226) && (code b =? 128)
      && ((128 <=? code c) && (code c <=? 138)
          || (code c =? 168) || (code c =? 169) || (code c =? 175))
   || (code a =? 226) && (code b =? 129) && (code c =? 159)
   || (code a =? 227) && (code b =? 128) && (code c =? 128)
   || (code a =? 239) && (code b =? 187) && (code c =? 191))%N.

(** [String.prototype.trimStart]: drop the leading white space. *)
Fixpoint trimStart (s : string) : string :=
  match s with
  | EmptyString => EmptyString
  | String a s1 =>
      if ws1 a then trimStart s1
      else
        match s1 with
        | EmptyString => s
        | String b s2 =>
            if ws2 a b then trimStart s2
            else
              match s2 with
              | EmptyString => s
              | String c s3 => if ws3 a b c then trimStart s3 else s
              end
        end
  end.

(** [String.prototype.trimEnd]: drop the longest suffix that is white space
    only. *)
Fixpoint trimEnd (s : string) : string :=
  match s with
  | EmptyString => EmptyString
  | String a r =>
      if String.eqb (trimStart s) EmptyString then EmptyString
      else String a (trimEnd r)
  end.

(** [String.prototype.trim]. *)
Definition trim (s : string) : string := trimEnd (trimStart s).

(** A string that is empty or made of white space only. *)
Inductive whitespace_only : string -> Prop :=
  | ws_empty : whitespace_only EmptyString
  | ws_one a s :
      ws1 a = true -> whitespace_only s -> whitespace_only (String a s)
  | ws_two a b s :
      ws2 a b = true -> whitespace_only s ->
      whitespace_only (String a (String b s))
  | ws_three a b c s :
      ws3 a b c = true -> whitespace_only s ->
      whitespace_only (String a (String b (String c s))).

(** [ToBoolean] of a string: the empty string is the only falsy one. *)
Definition truthy_string (s : string) : bool := negb (String.eqb s EmptyString).

(** [String.prototype.split] with a one-character separator: the pieces
    between the separators, always at least one piece. *)
Fixpoint split (sep : ascii) (s : string) : list string :=
  match s with
  | EmptyString => [EmptyString]
  | String c r =>
      if Ascii.eqb c sep then EmptyString :: split sep r
      else
        match split sep r with
        | w :: ws => String c w :: ws
        | [] => [String c EmptyString]
        end
  end.

(** [String.prototype.startsWith]. *)
Definition startsWith (p s : string) : bool := String.prefix p s.

(** *** Arrays *)

(** The relative index of [Array.prototype.slice]: a negative index counts
    from the end, and every index is clamped to [0 .. len]. *)
Definition relative_index (len : nat) (k : Z) : nat :=
  if (k <? 0)%Z then Z.to_nat (Z.max (Z.of_nat len + k) 0)
  else Nat.min (Z.to_nat k) len.

(** [arr.slice(start, end)]; [None] for an omitted [end]. *)
Definition slice {A : Type} (arr : list A) (start : Z) (end_ : option Z) : list A :=
  let len := List.length arr in
  let k := relative_index len start in
  let final := match end_ with
               | None => len
               | Some e => relative_index len e
               end in
  firstn (final - k) (skipn k arr).

(** [arr[i]]: [None] is [undefined], also for a negative index. *)
Definition index {A : Type} (arr : list A) (i : Z) : option A :=
  if (i <? 0)%Z then None else nth_error arr (Z.to_nat i).

(** *** Numbers *)

(** A Number is a binary64 floating-point value. *)
Definition number : Type := spec_float.
Definition prec : Z := 53.
Definition emax : Z := 1024.

Definition NaN : number := S754_nan.
Definition Infinity : number := S754_infinity false.
Definition zero : number := S754_zero false.

Definition is_nan (x : number) : bool :=
  match x with S754_nan => true | _ => false end.

(** [ToBoolean] of a Number: [NaN], [+0] and [-0] are falsy. *)
Definition truthy_number (x : number) : bool :=
  match x with
  | S754_nan | S754_zero _ => false
  | _ => true
  end.

(** [x || 0] on a Number. *)
Definition or_zero (x : number) : number :=
  if truthy_number x then x else zero.

Definition is_digit (c : ascii) : bool :=
  ((48 <=? code c) && (code c <=? 57))%N.

(** The longest run of decimal digits at the start, and what follows it. *)
Fixpoint span_digits (s : string) : string * string :=
  match s with
  | String c r =>
      if is_digit c
      then let (ds, rest) := span_digits r in (String c ds, rest)
      else (EmptyString, s)
  | EmptyString => (EmptyString, EmptyString)
  end.

Fixpoint digits_value_from (acc : N) (ds : string) : N :=
  match ds with
  | String c r => digits_value_from (acc * 10 + (code c - 48))%N r
  | EmptyString => acc
  end.

(** The mathematical value of a run of decimal digits. *)
Definition digits_value (ds : string) : N := digits_value_from 0%N ds.

(** The mathematical value of a [StrUnsignedDecimalLiteral]: infinity, or
    [D * 10^e]. *)
Inductive MV : Type :=
  | MV_Infinity
  | MV_decimal (D : N) (e : Z).

(** The value of the [ExponentPart] the string starts with; 0 when it starts
    with none (an [e] that no digit follows is not part of the literal). *)
Definition ExponentPart (s : string) : Z :=
  match s with
  | String c r =>
      if (Ascii.eqb c "e" || Ascii.eqb c "E")%bool then
        let '(neg, r') :=
          match r with
          | String "+"%char r' => (false, r')
          | String "-"%char r' => (true, r')
          | _ => (false, r)
          end in
        let (ds, _) := span_digits r' in
        if String.eqb ds EmptyString then 0%Z
        else if neg then (- Z.of_N (digits_value ds))%Z
             else Z.of_N (digits_value ds)
      else 0%Z
  | EmptyString => 0%Z
  end.

(** The longest prefix of [s] that is a [StrUnsignedDecimalLiteral]:
    [Infinity], [digits . digits? exponent?], [. digits exponent?] or
    [digits exponent?]; [None] when no prefix is one. *)
Definition StrUnsignedDecimalLiteral (s : string) : option MV :=
  if startsWith "Infinity" s then Some MV_Infinity
  else
    let (int, r1) := span_digits s in
    match r1 with
    | String "."%char r2 =>
        let (frac, r3) := span_digits r2 in
        if (String.eqb int EmptyString && String.eqb frac EmptyString)%bool
        then None
        else Some (MV_decimal (digits_value (int ++ frac))
                              (ExponentPart r3 - Z.of_nat (String.length frac)))
    | _ =>
        if String.eqb int EmptyString then None
        else Some (MV_decimal (digits_value int) (ExponentPart r1))
    end.

(** The Number value of [D * 10^e]: the nearest binary64 value, ties to the
    even mantissa.  For a negative [e] the quotient is taken with at least 55
    bits and the position of the remainder. *)
Definition round_decimal (neg : bool) (D : N) (e : Z) : number :=
  match D with
  | N0 => S754_zero neg
  | Npos d =>
      if (0 <=? e)%Z
      then binary_round prec emax neg (d * Z.to_pos (10 ^ e)) 0
      else
        let den := (10 ^ (- e))%Z in
        let s := Z.max 0 (Zdigits2 den - Zdigits2 (Zpos d) + 55) in
        let '(q, r) := Z.div_eucl (Z.shiftl (Zpos d) s) den in
        binary_round_aux prec emax neg q (- s) (new_location den r)
  end.

(** [ToString] of the argument of [parseFloat]: a string, or [undefined]. *)
Definition ToString_arg (v : option string) : string :=
  match v with
  | Some s => s
  | None => "undefined"
  end.

(** [parseFloat(string)]: white space is skipped, then the longest prefix that
    is a decimal literal is converted; [NaN] when there is none. *)
Definition parseFloat (string : option string) : number :=
  let inputString := ToString_arg string in
  let trimmedString := trimStart inputString in
  let '(neg, rest) :=
    match trimmedString with
    | String "-"%char r => (true, r)
    | String "+"%char r => (false, r)
    | _ => (false, trimmedString)
    end in
  match StrUnsignedDecimalLiteral rest with
  | None => NaN
  | Some MV_Infinity => S754_infinity neg
  | Some (MV_decimal D e) => round_decimal neg D e
  end.

(** [x <= y] on Numbers. *)
Definition le (x y : number) : Prop := SFleb x y = true.

(** One step of [Math.min] and of [Math.max]: the lower (the higher) of the
    value kept so far and the next one, [-0] being below [+0]. *)
Definition lower (lowest x : number) : number :=
  match lowest, x with
  | S754_zero false, S754_zero true => x
  | _, _ => if SFltb x lowest then x else lowest
  end.

Definition higher (highest x : number) : number :=
  match highest, x with
  | S754_zero true, S754_zero false => x
  | _, _ => if SFltb highest x then x else highest
  end.

(** [Math.min(...values)]: [NaN] if a value is [NaN]; otherwise the lowest
    value, [+Infinity] for no value. *)
Definition Math_min (values : list number) : number :=
  if existsb is_nan values then NaN
  else fold_left lower values (S754_infinity false).

(** [Math.max(...values)]: [NaN] if a value is [NaN]; otherwise the highest
    value, [-Infinity] for no value. *)
Definition Math_max (values : list number) : number :=
  if existsb is_nan values then NaN
  else fold_left higher values (S754_infinity true).

(** *** The order of Numbers *)

(** A Number that is not [NaN] has a place in the order: the class
    ([-Infinity], negative, zero, positive, [+Infinity]), then the exponent,
    then the mantissa, the last two mirrored for a negative value. *)
Definition rank (x : number) : Z * Z * Z :=
  match x with
  | S754_nan => (0, 0, 0)%Z
  | S754_zero _ => (0, 0, 0)%Z
  | S754_infinity true => (-2, 0, 0)%Z
  | S754_infinity false => (2, 0, 0)%Z
  | S754_finite true m e => (-1, - e, Zneg m)%Z
  | S754_finite false m e => (1, e, Zpos m)%Z
  end.

Definition lex_lt (p q : Z * Z * Z) : Prop :=
  let '(a, b, c) := p in
  let '(a', b', c') := q in
  (a < a' \/ a = a' /\ (b < b' \/ b = b' /\ c < c'))%Z.

Definition lex_le (p q : Z * Z * Z) : Prop :=
  let '(a, b, c) := p in
  let '(a', b', c') := q in
  (a < a' \/ a = a' /\ (b < b' \/ b = b' /\ c <= c'))%Z.

(** *** Number to string *)

(** The decimal digits of a natural number. *)
Definition decimal_of_N (n : N) : string := NilZero.string_of_uint (N.to_uint n).

Fixpoint zeros (n : nat) : string :=
  match n with
  | O => EmptyString
  | S k => String "0" (zeros k)
  end.

(** The positive value [m * 2^e] as a fraction. *)
Definition ratio_of (m : positive) (e : Z) : Z * Z :=
  if (0 <=? e)%Z then (Zpos m * 2 ^ e, 1)%Z else (Zpos m, 2 ^ (- e))%Z.

(** [10^k <= num / den]. *)
Definition pow10_le (num den k : Z) : bool :=
  if (0 <=? k)%Z then (den * 10 ^ k <=? num)%Z
  else (den <=? num * 10 ^ (- k))%Z.

(** The integer part of the decimal logarithm of [num / den]: the candidates
    around the estimate from the binary logarithms, highest first. *)
Definition floor_log10 (num den : Z) : Z :=
  let k0 := ((Z.log2 num - Z.log2 den) * 1233 / 4096)%Z in
  match find (pow10_le num den)
             [k0 + 2; k0 + 1; k0; k0 - 1; k0 - 2]%Z with
  | Some k => k
  | None => (k0 - 3)%Z
  end.

(** The two [k]-digit decimals [s * 10^(n-k)] around [num / den], the closer
    one first (on a tie the even one). *)
Definition candidates (num den n : Z) (k : nat) : list (Z * Z) :=
  let sc := (Z.of_nat k - n)%Z in
  let '(P, Q) :=
    if (0 <=? sc)%Z then (num * 10 ^ sc, den)%Z
    else (num, den * 10 ^ (- sc))%Z in
  let '(lo, r) := Z.div_eucl P Q in
  let norm s :=
    if (s =? 10 ^ Z.of_nat k)%Z then (s / 10, n + 1)%Z else (s, n) in
  let hi := (lo + 1)%Z in
  match (2 * r ?= Q)%Z with
  | Lt => [norm lo; norm hi]
  | Gt => [norm hi; norm lo]
  | Eq => if Z.even lo then [norm lo; norm hi] else [norm hi; norm lo]
  end.

(** [s * 10^(n-k)] has [k] digits and its Number value is [x]. *)
Definition roundtrips (x : number) (k : nat) (c : Z * Z) : bool :=
  let '(s, n) := c in
  ((10 ^ (Z.of_nat k - 1) <=? s)%Z
   && match x, round_decimal false (Z.to_N s) (n - Z.of_nat k) with
      | S754_finite _ m e, S754_finite _ m' e' => Pos.eqb m m' && Z.eqb e e'
      | _, _ => false
      end)%bool.

(** The shortest decimal whose Number value is [x]: [k] digits [s] and the
    exponent [n], trying [k], [k + 1], ... *)
Fixpoint shortest (x : number) (num den n : Z) (fuel k : nat) : Z * Z * nat :=
  match find (roundtrips x k) (candidates num den n k) with
  | Some (s, n') => (s, n', k)
  | None =>
      match fuel with
      | O => (0%Z, n, k)
      | S fuel' => shortest x num den n fuel' (S k)
      end
  end.

(** Steps 7 to 11 of [Number::toString]: where the decimal point goes, and
    the exponent notation outside [1e-7 .. 1e21]. *)
Definition format_decimal (s n : Z) (k : nat) : string :=
  let ds := decimal_of_N (Z.to_N s) in
  let kz := Z.of_nat k in
  if ((kz <=? n) && (n <=? 21))%Z then ds ++ zeros (Z.to_nat (n - kz))
  else if ((0 <? n) && (n <=? 21))%Z then
    substring 0 (Z.to_nat n) ds ++ "."
      ++ substring (Z.to_nat n) (k - Z.to_nat n) ds
  else if ((-6 <? n) && (n <=? 0))%Z then
    "0." ++ zeros (Z.to_nat (- n)) ++ ds
  else
    let e := (n - 1)%Z in
    let es := (if (e <? 0)%Z then "-" else "+")
                ++ decimal_of_N (Z.to_N (Z.abs e)) in
    if (k =? 1)%nat then ds ++ "e" ++ es
    else substring 0 1 ds ++ "." ++ substring 1 (k - 1) ds ++ "e" ++ es.

(** [Number::toString(x)] in radix 10, as a template literal and
    [JSON.stringify] print a Number. *)
Definition Number_toString (x : number) : string :=
  match x with
  | S754_nan => "NaN"
  | S754_zero _ => "0"
  | S754_infinity s => if s then "-Infinity" else "Infinity"
  | S754_finite sg m e =>
      let '(num, den) := ratio_of m e in
      let n := (floor_log10 num den + 1)%Z in
      let '(s, n', k) := shortest (S754_finite false m e) num den n 16 1 in
      (if sg then "-" else "") ++ format_decimal s n' k
  end.

(** *** Values *)

(** The values a handler meets: [undefined], and what [JSON.parse] builds.
    An object keeps its members in the order of the text. *)
#[local] Unset Elimination Schemes.
Inductive Value : Type :=
  | Undefined
  | Null
  | Bool (b : bool)
  | Num (x : number)
  | Str (s : string)
  | Arr (elements : list Value)
  | Obj (members : list (string * Value)).
#[local] Set Elimination Schemes.

(** [ToBoolean]. *)
Definition truthy (v : Value) : bool :=
  match v with
  | Undefined | Null => false
  | Bool b => b
  | Num x => truthy_number x
  | Str s => truthy_string s
  | Arr _ | Obj _ => true
  end.

(** The member of an object under a key; of a repeated key [JSON.parse]
    keeps the last one. *)
Fixpoint member (key : string) (members : list (string * Value)) : Value :=
  match members with
  | [] => Undefined
  | (k, v) :: rest =>
      match member key rest with
      | Undefined => if String.eqb k key then v else Undefined
      | found => found
      end
  end.

(** *** JSON.stringify *)

Definition hex_digit (n : N) : ascii :=
  ascii_of_N (if (n <? 10)%N then 48 + n else 87 + n).

(** [QuoteJSONString] for one byte: the quote, the backslash and the control
    characters are escaped. *)
Definition quote_char (c : ascii) : string :=
  let n := code c in
  if (n =? 34)%N then "\" ++ String c ""
  else if (n =? 92)%N then "\\"
  else if (n =? 8)%N then "\b"
  else if (n =? 9)%N then "\t"
  else if (n =? 10)%N then "\n"
  else if (n =? 12)%N then "\f"
  else if (n =? 13)%N then "\r"
  else if (n <? 32)%N then
    "\u00" ++ String (hex_digit (n / 16)) (String (hex_digit (n mod 16)) "")
  else String c "".

Fixpoint quote_chars (s : string) : string :=
  match s with
  | EmptyString => EmptyString
  | String c r => quote_char c ++ quote_chars r
  end.

Definition quote : string := String (ascii_of_N 34) "".

Definition QuoteJSONString (s : string) : string :=
  quote ++ quote_chars s ++ quote.

(** A finite Number prints as [Number::toString]; [NaN] and the infinities
    print as [null]. *)
Definition stringify_number (x : number) : string :=
  match x with
  | S754_nan | S754_infinity _ => "null"
  | _ => Number_toString x
  end.

(** [Array.prototype.join]. *)
Fixpoint join (sep : string) (parts : list string) : string :=
  match parts with
  | [] => EmptyString
  | [p] => p
  | p :: rest => p ++ sep ++ join sep rest
  end.

End JS.

(* ================================================================= *)
(** ** The component *)

Module Chat.

Import JS.
Local Open Scope string_scope.

(** *** Data *)

(** [sender] of a message: ['user'], ['assistant'] or ['system']. *)
Inductive Sender : Type := user | assistant | system.

(** A chat message [{ sender, text }]; the text of an assistant message is
    whatever value the response held. *)
Record Message : Type := { sender : Sender; text : Value }.

(** [backendStatus]: ['checking'], ['connected'], ['disconnected'], ['error']. *)
Inductive BackendStatus : Type := checking | connected | disconnected | error.

(** The preview [{ headers, preview, totalLines }] of a selected file. *)
Record CsvPreview : Type :=
  { headers : list string; preview : list string; totalLines : Z }.

(** A selected file: its name, and what [file.text()] resolves to ([None]
    when the promise rejects). *)
Record File : Type := { name : string; File_text : option string }.

(** A record of the array sent to the backend. *)
Record OhlcRecord : Type :=
  { t : string; open : number; high : number; low : number;
    close : number; volume : number }.

(** The state of the component, one field per [useState]. *)
Record State : Type :=
  { messages : list Message;
    input : string;
    csvFile : option File;
    loading : bool;
    backendStatus : BackendStatus;
    csvPreview : option CsvPreview }.

(** [useState] initial values. *)
Definition initial : State :=
  {| messages := []; input := ""; csvFile := None; loading := false;
     backendStatus := checking; csvPreview := None |}.

(** *** The network and the clock *)

Inductive Method : Type := GET | POST.

(** A request: the URL, the method and the entries of the [FormData] body. *)
Record Request : Type :=
  { url : string; method : Method; body : list (string * string) }.

(** A response: [res.ok], and what [res.json()] resolves to ([None] when the
    body is not JSON and the promise rejects). *)
Record Response : Type := { ok : bool; json : option Value }.

(** What the browser answers: the outcome of a [fetch] ([None] when the
    promise rejects: no response), and [new Date().toISOString()] at the
    [i]-th row of a conversion. *)
Record Env : Type :=
  { fetch_outcome : Request -> option Response;
    now : nat -> string }.

(** *** State, requests and exceptions *)

(** What a handler changes: the state of the component and the requests
    issued so far (the oldest first). *)
Record World : Type := { state : State; requests : list Request }.

Inductive Exn : Type :=
  | TypeError       (* a property of [undefined] or [null] is read *)
  | NetworkError    (* [fetch] rejects *)
  | SyntaxError     (* [res.json()] rejects *)
  | ReadError.      (* [file.text()] rejects *)

Inductive Result (A : Type) : Type :=
  | Return (a : A)
  | Throw (e : Exn).

Arguments Return {A} a.
Arguments Throw {A} e.

(** A handler run from its call to its end, every promise it awaits
    settled: [await] is sequencing.  A run that starts while another one is
    waiting at an [await] is not expressed. *)
Definition M (A : Type) : Type := World -> Result A * World.

Definition ret {A : Type} (a : A) : M A := fun w => (Return a, w).

Definition throw {A : Type} (e : Exn) : M A := fun w => (Throw e, w).

Definition bind {A B : Type} (c : M A) (k : A -> M B) : M B :=
  fun w =>
    match c w with
    | (Return a, w') => k a w'
    | (Throw e, w') => (Throw e, w')
    end.

(** [try { c } catch (error) { handler }]: what [c] changed before it threw
    stays changed. *)
Definition try_catch {A : Type} (c : M A) (handler : Exn -> M A) : M A :=
  fun w =>
    match c w with
    | (Return a, w') => (Return a, w')
    | (Throw e, w') => handler e w'
    end.

Notation "x <- c ;; k" := (bind c (fun x => k))
  (at level 61, c at next level, right associativity).
Notation "c ;; k" := (bind c (fun _ => k))
  (at level 61, right associativity).

(** The state setters of [useState]. *)
Definition update (f : State -> State) : M unit :=
  fun w => (Return tt, {| state := f (state w); requests := requests w |}).

Definition setMessages (f : list Message -> list Message) : M unit :=
  update (fun s =>
    {| messages := f (messages s); input := input s; csvFile := csvFile s;
       loading := loading s; backendStatus := backendStatus s;
       csvPreview := csvPreview s |}).

Definition setInput (v : string) : M unit :=
  update (fun s =>
    {| messages := messages s; input := v; csvFile := csvFile s;
       loading := loading s; backendStatus := backendStatus s;
       csvPreview := csvPreview s |}).

Definition setCsvFile (v : option File) : M unit :=
  update (fun s =>
    {| messages := messages s; input := input s; csvFile := v;
       loading := loading s; backendStatus := backendStatus s;
       csvPreview := csvPreview s |}).

Definition setLoading (v : bool) : M unit :=
  update (fun s =>
    {| messages := messages s; input := input s; csvFile := csvFile s;
       loading := v; backendStatus := backendStatus s;
       csvPreview := csvPreview s |}).

Definition setBackendStatus (v : BackendStatus) : M unit :=
  update (fun s =>
    {| messages := messages s; input := input s; csvFile := csvFile s;
       loading := loading s; backendStatus := v;
       csvPreview := csvPreview s |}).

Definition setCsvPreview (v : option CsvPreview) : M unit :=
  update (fun s =>
    {| messages := messages s; input := input s; csvFile := csvFile s;
       loading := loading s; backendStatus := backendStatus s;
       csvPreview := v |}).

(** The state the handler was rendered with: what its closure reads as
    [input] and [csvFile]. *)
Definition rendered : M State := fun w => (Return (state w), w).

(** [await fetch(url, { method, body })]: the request is issued, then the
    promise resolves to a response or rejects. *)
Definition fetch (env : Env) (req : Request) : M Response :=
  fun w =>
    let w' := {| state := state w; requests := (requests w ++ [req])%list |} in
    match fetch_outcome env req with
    | Some res => (Return res, w')
    | None => (Throw NetworkError, w')
    end.

(** [await res.json()]. *)
Definition Response_json (res : Response) : M Value :=
  match json res with
  | Some data => ret data
  | None => throw SyntaxError
  end.

(** [await file.text()]. *)
Definition text_of (file : File) : M string :=
  match File_text file with
  | Some text => ret text
  | None => throw ReadError
  end.

(** [data.key]: reading a property of [null] or [undefined] throws; a value
    that is not an object has neither of the properties read here. *)
Definition get (data : Value) (key : string) : M Value :=
  match data with
  | Undefined | Null => throw TypeError
  | Obj members => ret (member key members)
  | _ => ret Undefined
  end.

(** [line.split(',')] on an array element: [undefined.split] throws. *)
Definition split_comma (line : option string) : M (list string) :=
  match line with
  | Some l => ret (split "," l)
  | None => throw TypeError
  end.

(** [console.log] and [console.error]: the console is not part of the
    state. *)
Definition console_log : M unit := ret tt.
Definition console_error (e : Exn) : M unit := ret tt.

(** *** The lines of a file and the rows converted *)

Definition LF : ascii := ascii_of_N 10.
Definition nl : string := String LF "".

(** [text.split('\n').filter(line => line.trim())]: the non-empty lines. *)
Definition lines_of (text : string) : list string :=
  filter (fun line => truthy_string (trim line)) (split LF text).

(** [const minLines = 50]. *)
Definition minLines : nat := 50.

(** [lines.slice(1)]: the header is skipped. *)
Definition dataLines (lines : list string) : list string :=
  slice lines 1 None.

(** [dataLines.length >= minLines ? dataLines.slice(-minLines) : dataLines]. *)
Definition linesToProcess (lines : list string) : list string :=
  let dataLines := dataLines lines in
  if (minLines <=? List.length dataLines)%nat
  then slice dataLines (- Z.of_nat minLines) None
  else dataLines.

(** The callback of [linesToProcess.map]: one line becomes one record;
    [clock] is [new Date().toISOString()] at that row. *)
Definition record_of_line (clock : string) (line : string) : OhlcRecord :=
  let values := split "," line in
  {| t := match index values 0 with
          | Some v => if truthy_string v then v else clock
          | None => clock
          end;
     open := or_zero (parseFloat (index values 1));
     high := or_zero (parseFloat (index values 2));
     low := or_zero (parseFloat (index values 3));
     close := or_zero (parseFloat (index values 4));
     volume := or_zero (parseFloat (index values 5)) |}.

Fixpoint map_from {A B : Type} (f : nat -> A -> B) (i : nat) (l : list A) : list B :=
  match l with
  | [] => []
  | a :: rest => f i a :: map_from f (S i) rest
  end.

(** [linesToProcess.map(line => ...)], the rows in the order of the lines. *)
Definition ohlcData (clock : nat -> string) (linesToProcess : list string)
  : list OhlcRecord :=
  map_from (fun i line => record_of_line (clock i) line) 0 linesToProcess.

(** [JSON.stringify] of one record and of the array. *)
Definition stringify_record (d : OhlcRecord) : string :=
  "{" ++ QuoteJSONString "t" ++ ":" ++ QuoteJSONString (t d)
    ++ "," ++ QuoteJSONString "open" ++ ":" ++ stringify_number (open d)
    ++ "," ++ QuoteJSONString "high" ++ ":" ++ stringify_number (high d)
    ++ "," ++ QuoteJSONString "low" ++ ":" ++ stringify_number (low d)
    ++ "," ++ QuoteJSONString "close" ++ ":" ++ stringify_number (close d)
    ++ "," ++ QuoteJSONString "volume" ++ ":" ++ stringify_number (volume d)
    ++ "}".

Definition JSON_stringify (ohlcData : list OhlcRecord) : string :=
  "[" ++ join "," (map stringify_record ohlcData) ++ "]".

(** [${d?.t}] in a template literal: [undefined] prints as its name. *)
Definition template_t (d : option OhlcRecord) : string :=
  match d with
  | Some r => t r
  | None => "undefined"
  end.

(** The summary of line 131, the local [csvPreview] of [uploadCSV]. *)
Definition summary (ohlcData : list OhlcRecord) : string :=
  "📊 CSV uploaded and analyzed" ++ nl ++ nl
    ++ "📈 Data Summary:" ++ nl
    ++ "- Total lines processed: "
    ++ decimal_of_N (N.of_nat (List.length ohlcData)) ++ nl
    ++ "- Date range: " ++ template_t (index ohlcData 0)
    ++ " to "
    ++ template_t (index ohlcData (Z.of_nat (List.length ohlcData) - 1)) ++ nl
    ++ "- Price range: $" ++ Number_toString (Math_min (map low ohlcData))
    ++ " - $" ++ Number_toString (Math_max (map high ohlcData)).

Definition chat_error : string :=
  "❌ Error connecting to backend. Make sure the server is running on port 8000.".

Definition analyze_error : string := "❌ Failed to upload and analyze CSV".

(** [input || 'Analyze this CSV data']. *)
Definition question_of (input : string) : string :=
  if truthy_string input then input else "Analyze this CSV data".

Definition health_request : Request :=
  {| url := "http://localhost:8000/health"; method := GET; body := [] |}.

Definition chat_request (input : string) : Request :=
  {| url := "http://localhost:8000/chat"; method := POST;
     body := [("prompt", input)] |}.

Definition analyze_request (input : string) (ohlcData : list OhlcRecord) : Request :=
  {| url := "http://localhost:8000/analyze"; method := POST;
     body := [("question", question_of input);
              ("ohlc_json", JSON_stringify ohlcData)] |}.

Definition append (m : Message) (prev : list Message) : list Message :=
  (prev ++ [m])%list.

(** *** The handlers *)

Definition checkBackendHealth (env : Env) : M unit :=
  try_catch
    (res <- fetch env health_request ;;
     if ok res then
       data <- Response_json res ;;
       setBackendStatus connected ;;
       console_log
     else
       setBackendStatus error)
    (fun error =>
       setBackendStatus disconnected ;;
       console_error error).

Definition handleCsvFileChange (file : option File) : M unit :=
  setCsvFile file ;;
  match file with
  | Some f =>
      try_catch
        (text <- text_of f ;;
         let lines := lines_of text in
         headers <- split_comma (index lines 0) ;;
         let previewLines := slice lines 1 (Some 6%Z) in
         setCsvPreview
           (Some {| headers := headers;
                    preview := previewLines;
                    totalLines := (Z.of_nat (List.length lines) - 1)%Z |}))
        (fun error =>
           console_error error ;;
           setCsvPreview None)
  | None => setCsvPreview None
  end.

Definition sendMessage (env : Env) : M unit :=
  s <- rendered ;;
  let input := input s in
  if negb (truthy_string (trim input)) then ret tt
  else
    setLoading true ;;
    let userMessage := {| sender := user; text := Str input |} in
    setMessages (append userMessage) ;;
    try_catch
      (res <- fetch env (chat_request input) ;;
       data <- Response_json res ;;
       response <- get data "response" ;;
       text <- (if truthy response then ret response else get data "analysis") ;;
       let botMessage := {| sender := assistant; text := text |} in
       setMessages (append botMessage))
      (fun error =>
         console_error error ;;
         setMessages (append {| sender := system; text := Str chat_error |})) ;;
    setInput "" ;;
    setLoading false.

Definition uploadCSV (env : Env) : M unit :=
  s <- rendered ;;
  let input := input s in
  match csvFile s with
  | None => ret tt
  | Some csvFile =>
      setLoading true ;;
      try_catch
        (text <- text_of csvFile ;;
         let lines := lines_of text in
         headers <- split_comma (index lines 0) ;;
         let linesToProcess := linesToProcess lines in
         console_log ;;
         let ohlcData := ohlcData (now env) linesToProcess in
         res <- fetch env (analyze_request input ohlcData) ;;
         data <- Response_json res ;;
         let csvPreview := summary ohlcData in
         setMessages (append {| sender := system; text := Str csvPreview |}) ;;
         analysis <- get data "analysis" ;;
         if truthy analysis then
           let botMessage := {| sender := assistant; text := analysis |} in
           setMessages (append botMessage)
         else ret tt)
        (fun error =>
           console_error error ;;
           setMessages (append {| sender := system; text := Str analyze_error |})) ;;
      setCsvFile None ;;
      setCsvPreview None ;;
      setLoading false
  end.

End Chat.


(* ================================================================= *)
(** ** What the component renders and how its controls call the handlers *)

Module View.

Import JS Chat.
Local Open Scope string_scope.

(** [disabled={loading || !input.trim()}] of the Send button. *)
Definition send_disabled (s : State) : bool :=
  loading s || negb (truthy_string (trim (input s))).

(** [disabled={!csvFile || loading}] of the Analyze CSV button. *)
Definition analyze_disabled (s : State) : bool :=
  match csvFile s with
  | Some _ => false
  | None => true
  end || loading s.

(** [onKeyDown={e => e.key === 'Enter' && sendMessage()}] of the text
    field. *)
Definition onKeyDown (env : Env) (key : string) : M unit :=
  if String.eqb key "Enter" then sendMessage env else ret tt.

(** [useEffect(() => { checkBackendHealth(); }, [])]: the effect of the
    mount. *)
Definition mount (env : Env) : M unit := checkBackendHealth env.

(** [csvPreview.preview.slice(0, 3)]: the rows of the preview box. *)
Definition shown_rows (p : CsvPreview) : list string :=
  slice (preview p) 0 (Some 3%Z).

(** [csvPreview.preview.length > 3 && <div>...</div>]. *)
Definition ellipsis (p : CsvPreview) : bool :=
  (3 <? List.length (preview p))%nat.

End View.

(* ================================================================= *)
(** ** Vocabulary for the outcomes of a handler *)

Module Outcome.

Import JS Chat.
Local Open Scope string_scope.

Definition user_message (s : string) : Message :=
  {| sender := user; text := Str s |}.

Definition system_message (s : string) : Message :=
  {| sender := system; text := Str s |}.

Definition assistant_message (v : Value) : Message :=
  {| sender := assistant; text := v |}.

(** The world [uploadCSV] leaves once it is past its guard: the messages
    [added] after the earlier ones, the requests [issued] after the earlier
    ones, no file, no preview, not loading; the rest as before. *)
Definition after_upload (w : World) (added : list Message) (issued : list Request)
  : World :=
  {| state :=
       {| messages := (messages (state w) ++ added)%list;
          input := input (state w);
          csvFile := None;
          loading := false;
          backendStatus := backendStatus (state w);
          csvPreview := None |};
     requests := (requests w ++ issued)%list |}.

(** The world [sendMessage] leaves once it is past its guard: the input is
    cleared and the component is not loading. *)
Definition after_send (w : World) (added : list Message) (issued : list Request)
  : World :=
  {| state :=
       {| messages := (messages (state w) ++ added)%list;
          input := "";
          csvFile := csvFile (state w);
          loading := false;
          backendStatus := backendStatus (state w);
          csvPreview := csvPreview (state w) |};
     requests := (requests w ++ issued)%list |}.

(** The world [checkBackendHealth] leaves: one request, and a status. *)
Definition after_health (w : World) (status : BackendStatus) : World :=
  {| state :=
       {| messages := messages (state w);
          input := input (state w);
          csvFile := csvFile (state w);
          loading := loading (state w);
          backendStatus := status;
          csvPreview := csvPreview (state w) |};
     requests := (requests w ++ [health_request])%list |}.

(** The world [handleCsvFileChange(file)] leaves: the file and a preview. *)
Definition after_select (w : World) (file : option File) (p : option CsvPreview)
  : World :=
  {| state :=
       {| messages := messages (state w);
          input := input (state w);
          csvFile := file;
          loading := loading (state w);
          backendStatus := backendStatus (state w);
          csvPreview := p |};
     requests := requests w |}.

(** What [uploadCSV] appends once the analyze request was answered with the
    JSON value [data]: the summary, then what reading [data.analysis]
    gives. *)
Definition analysis_messages (ohlcData : list OhlcRecord) (data : Value)
  : list Message :=
  system_message (summary ohlcData)
  :: match data with
     | Undefined | Null => [system_message analyze_error]
     | Obj members =>
         if truthy (member "analysis" members)
         then [assistant_message (member "analysis" members)]
         else []
     | _ => []
     end.

(** What [sendMessage] appends after the user message once the chat request
    was answered with the JSON value [data]. *)
Definition reply_message (data : Value) : Message :=
  match data with
  | Undefined | Null => system_message chat_error
  | Obj members =>
      assistant_message
        (if truthy (member "response" members)
         then member "response" members
         else member "analysis" members)
  | _ => assistant_message Undefined
  end.

(** What a numeric field [x] holds for the column [v] ([None] for a column
    the line does not have): the parsed Number, and 0 where parsing gave
    [NaN] or a zero. *)
Definition coerced (v : option string) (x : number) : Prop :=
  (is_nan (parseFloat v) = true -> x = zero)
  /\ (forall s, parseFloat v = S754_zero s -> x = zero)
  /\ (truthy_number (parseFloat v) = true -> x = parseFloat v).

(** The request failed: [fetch] rejected, or the body of the response was
    not JSON and [res.json()] rejected. *)
Definition request_failed (env : Env) (req : Request) : Prop :=
  fetch_outcome env req = None
  \/ exists res, fetch_outcome env req = Some res /\ json res = None.

(** How many objects a JSON text holds: its opening braces outside its
    strings.  The scan is inside a string from a quote to the next quote
    that no backslash escapes. *)
Fixpoint count_objects_from (in_string escaped : bool) (s : string) : nat :=
  match s with
  | EmptyString => 0
  | String c r =>
      if in_string then
        if escaped then count_objects_from true false r
        else if (code c =? 92)%N then count_objects_from true true r
        else if (code c =? 34)%N then count_objects_from false false r
        else count_objects_from true false r
      else if (code c =? 34)%N then count_objects_from true false r
      else if (code c =? 123)%N then S (count_objects_from false false r)
      else count_objects_from false false r
  end.

Definition count_objects (json : string) : nat :=
  count_objects_from false false json.

(** A text with no quote and no opening brace. *)
Fixpoint plain (s : string) : bool :=
  match s with
  | EmptyString => true
  | String c r =>
      negb (code c =? 34)%N && negb (code c =? 123)%N && plain r
  end.

End Outcome.

(* ================================================================= *)
(** ** Concrete files, states and backends *)

Module Scenario.

Import JS Chat.
Local Open Scope string_scope.

(** The carriage return that ends a line of a file with Windows line
    ends, once the text is split at the line feeds. *)
Definition CR : string := String (ascii_of_N 13) "".

(** The string of the given bytes. *)
Definition bytes (codes : list N) : string :=
  string_of_list_ascii (map ascii_of_N codes).

Definition header : string := "timestamp,open,high,low,close,volume".

(** The three-row file of the scenario. *)
Definition csv3 : string :=
  header ++ nl ++ "t1,10,12,9,11,100" ++ nl ++ "t2,11,13,10,12,110" ++ nl
    ++ "t3,12,14,11,13,120".

(** A file of [n] data rows [r0], [r1], ... after the header. *)
Fixpoint rows_from (i n : nat) : string :=
  match n with
  | O => ""
  | S k =>
      nl ++ "r" ++ decimal_of_N (N.of_nat i) ++ ",1,3,0.5,2,7"
        ++ rows_from (S i) k
  end.

Definition csv_rows (n : nat) : string := header ++ rows_from 0 n.

(** The data lines of a text: its non-empty lines but the first. *)
Definition data_of (text : string) : list string := tl (lines_of text).

Definition file_of (text : string) : File :=
  {| name := "prices.csv"; File_text := Some text |}.

Definition unreadable_file : File :=
  {| name := "prices.csv"; File_text := None |}.

(** A state with a file selected and a text typed. *)
Definition state_with (file : option File) (typed : string) : State :=
  {| messages := [{| sender := user; text := Str "hello" |}];
     input := typed; csvFile := file; loading := false;
     backendStatus := connected; csvPreview := None |}.

Definition at_start (s : State) : World := {| state := s; requests := [] |}.

Definition clock (i : nat) : string := "2024-01-01T00:00:00.000Z".

(** No backend: every [fetch] rejects. *)
Definition offline : Env := {| fetch_outcome := fun _ => None; now := clock |}.

(** A backend answering every request with [res]. *)
Definition answering (res : Response) : Env :=
  {| fetch_outcome := fun _ => Some res; now := clock |}.

Definition analysis_response : Response :=
  {| ok := true; json := Some (Obj [("analysis", Str "Prices rise.")]) |}.

Definition empty_object_response : Response :=
  {| ok := true; json := Some (Obj []) |}.

(** A 2xx response whose body is not JSON. *)
Definition plain_text_response : Response := {| ok := true; json := None |}.

Definition three_records : list OhlcRecord :=
  ohlcData clock (linesToProcess (lines_of csv3)).

(** The Number a decimal text denotes. *)
Definition num (s : string) : number := parseFloat (Some s).

Definition row (time o h l c v : string) : OhlcRecord :=
  {| t := time; open := num o; high := num h; low := num l; close := num c;
     volume := num v |}.

(** The summary of the three-row scenario and of a file with a header only. *)
Definition summary3 : string :=
  "📊 CSV uploaded and analyzed" ++ nl ++ nl
    ++ "📈 Data Summary:" ++ nl
    ++ "- Total lines processed: 3" ++ nl
    ++ "- Date range: t1 to t3" ++ nl
    ++ "- Price range: $9 - $14".

Definition summary0 : string :=
  "📊 CSV uploaded and analyzed" ++ nl ++ nl
    ++ "📈 Data Summary:" ++ nl
    ++ "- Total lines processed: 0" ++ nl
    ++ "- Date range: undefined to undefined" ++ nl
    ++ "- Price range: $Infinity - $-Infinity".

End Scenario.

(* ================================================================= *)
(** ** Facts about the built-ins *)

Module JSFacts.
Import JS.

Lemma append_assoc (x y z : string) :
  ((x ++ y) ++ z = x ++ (y ++ z))%string.
Proof. induction x as [|c x IH]; cbn; [|rewrite IH]; reflexivity. Qed.

(** **** White space and [trim] *)

Ltac bool_to_prop H :=
  repeat rewrite ?andb_true_iff, ?orb_true_iff, ?N.eqb_eq, ?N.leb_le in H.

Lemma ws2_not_ws1 a b : ws2 a b = true -> ws1 a = false.
Proof.
  unfold ws2, ws1. intros H. bool_to_prop H.
  apply not_true_is_false. intros H1. bool_to_prop H1. lia.
Qed.

Lemma ws3_not_ws1 a b c : ws3 a b c = true -> ws1 a = false.
Proof.
  unfold ws3, ws1. intros H. bool_to_prop H.
  apply not_true_is_false. intros H1. bool_to_prop H1. lia.
Qed.

Lemma ws3_not_ws2 a b c : ws3 a b c = true -> ws2 a b = false.
Proof.
  unfold ws3, ws2. intros H. bool_to_prop H.
  apply not_true_is_false. intros H1. bool_to_prop H1. lia.
Qed.

Lemma trimStart_whitespace_only s : whitespace_only s -> trimStart s = EmptyString.
Proof.
  induction 1 as [|a s Ha _ IH|a b s Hab _ IH|a b c s Habc _ IH].
  - reflexivity.
  - simpl. now rewrite Ha.
  - simpl. now rewrite (ws2_not_ws1 _ _ Hab), Hab.
  - simpl.
    now rewrite (ws3_not_ws1 _ _ _ Habc), (ws3_not_ws2 _ _ _ Habc), Habc.
Qed.

(** Every property of [trimStart] follows its three ways of stepping. *)
Lemma trimStart_cases (P : string -> string -> Prop) :
  P EmptyString EmptyString ->
  (forall a s, ws1 a = true -> P s (trimStart s) -> P (String a s) (trimStart s)) ->
  (forall a b s, ws1 a = false -> ws2 a b = true -> P s (trimStart s) ->
                 P (String a (String b s)) (trimStart s)) ->
  (forall a b c s, ws1 a = false -> ws2 a b = false -> ws3 a b c = true ->
                   P s (trimStart s) ->
                   P (String a (String b (String c s))) (trimStart s)) ->
  (forall s, s <> EmptyString -> trimStart s = s -> P s s) ->
  forall s, P s (trimStart s).
Proof.
  intros H0 H1 H2 H3 Hstop s.
  remember (String.length s) as n eqn:Hn.
  revert s Hn. induction n as [n IH] using lt_wf_ind. intros s Hn.
  destruct s as [|a s1]; [exact H0|].
  simpl. destruct (ws1 a) eqn:E1.
  - apply H1; [exact E1|]. apply (IH (String.length s1)); [simpl in Hn; lia|reflexivity].
  - destruct s1 as [|b s2].
    + apply Hstop; [discriminate|]. simpl. now rewrite E1.
    + destruct (ws2 a b) eqn:E2.
      * apply H2; trivial. apply (IH (String.length s2)); [simpl in Hn; lia|reflexivity].
      * destruct s2 as [|c s3].
        -- apply Hstop; [discriminate|]. simpl. now rewrite E1, E2.
        -- destruct (ws3 a b c) eqn:E3.
           ++ apply H3; trivial.
              apply (IH (String.length s3)); [simpl in Hn; lia|reflexivity].
           ++ apply Hstop; [discriminate|]. simpl. now rewrite E1, E2, E3.
Qed.

Lemma trimStart_empty_inv s : trimStart s = EmptyString -> whitespace_only s.
Proof.
  pattern s, (trimStart s). apply trimStart_cases; clear s.
  - intros _. constructor.
  - intros a s Ha IH H. apply ws_one; auto.
  - intros a b s _ Hab IH H. apply ws_two; auto.
  - intros a b c s _ _ Habc IH H. apply ws_three; auto.
  - intros s Hs _ H. contradiction.
Qed.

Lemma trimStart_idempotent s : trimStart (trimStart s) = trimStart s.
Proof.
  pattern s, (trimStart s). apply trimStart_cases; clear s; auto.
Qed.

Lemma trimEnd_empty_inv s : trimEnd s = EmptyString -> trimStart s = EmptyString.
Proof.
  destruct s as [|a r]; [reflexivity|].
  cbn [trimEnd]. destruct (String.eqb (trimStart (String a r)) EmptyString) eqn:E.
  - intros _. now apply String.eqb_eq.
  - discriminate.
Qed.

(** [s.trim()] is the empty string exactly when [s] is white space only. *)
Lemma trim_empty_iff s : trim s = EmptyString <-> whitespace_only s.
Proof.
  unfold trim. split.
  - intros H. apply trimEnd_empty_inv in H. rewrite trimStart_idempotent in H.
    now apply trimStart_empty_inv.
  - intros H. now rewrite (trimStart_whitespace_only s H).
Qed.

Lemma truthy_trim_false_iff s :
  truthy_string (trim s) = false <-> whitespace_only s.
Proof.
  unfold truthy_string. rewrite negb_false_iff, String.eqb_eq.
  apply trim_empty_iff.
Qed.

End JSFacts.

Module ArrayFacts.
Import JS.

Section Slice.
Context {A : Type}.
Implicit Types (arr : list A).

Lemma slice_to_end arr start :
  slice arr start None = skipn (relative_index (List.length arr) start) arr.
Proof.
  unfold slice. apply firstn_all2. rewrite length_skipn. lia.
Qed.

(** [arr.slice(1)] drops the first element. *)
Lemma slice_1 arr : slice arr 1 None = tl arr.
Proof.
  rewrite slice_to_end. unfold relative_index. simpl.
  destruct arr as [|a arr']; reflexivity.
Qed.

(** [arr.slice(-n)] keeps the last [n] elements. *)
Lemma slice_last arr n :
  (0 < n)%nat ->
  slice arr (- Z.of_nat n) None = skipn (List.length arr - n) arr.
Proof.
  intros Hn. rewrite slice_to_end. unfold relative_index.
  destruct (Z.ltb_spec (- Z.of_nat n) 0) as [_|H]; [|lia].
  f_equal. lia.
Qed.

(** [arr.slice(1, 6)]: at most five elements after the first. *)
Lemma slice_1_6 arr : slice arr 1 (Some 6%Z) = firstn 5 (tl arr).
Proof.
  unfold slice, relative_index.
  change (1 <? 0)%Z with false. change (6 <? 0)%Z with false.
  change (Z.to_nat 1) with 1%nat. change (Z.to_nat 6) with 6%nat.
  cbv iota.
  destruct arr as [|a arr']; [reflexivity|].
  replace (Nat.min 1 (List.length (a :: arr'))) with 1%nat by (simpl; lia).
  cbn [skipn tl].
  destruct (Nat.le_gt_cases 6 (List.length (a :: arr'))) as [H|H].
  - rewrite Nat.min_l by exact H. reflexivity.
  - rewrite Nat.min_r by lia. cbn [List.length] in H |- *.
    rewrite !firstn_all2; trivial; lia.
Qed.

Lemma index_0 arr : index arr 0 = hd_error arr.
Proof. destruct arr; reflexivity. Qed.
End Slice.

End ArrayFacts.

Module NumberFacts.
Import JS.

(** **** The order of Numbers *)

Lemma SFcompare_rank x y :
  is_nan x = false -> is_nan y = false ->
  exists c, SFcompare x y = Some c
            /\ (c = Lt <-> lex_lt (rank x) (rank y))
            /\ (c <> Gt <-> lex_le (rank x) (rank y)).
Proof.
  intros Hx Hy.
  destruct x as [sx|sx| |sx mx ex]; try discriminate;
    destruct y as [sy|sy| |sy my ey]; try discriminate;
    try destruct sx; try destruct sy;
    cbn [SFcompare rank lex_lt lex_le];
    try (eexists; split; [reflexivity|]; split; split;
         solve [intros; (lia || discriminate || congruence || reflexivity)
               | intros ? ?; discriminate ]).
  - (* both negative *)
    change (Pos.compare_cont Eq mx my) with (Pos.compare mx my).
    eexists; split; [reflexivity|].
    destruct (Z.compare_spec ex ey) as [He|He|He];
      destruct (Pos.compare_spec mx my) as [Hm|Hm|Hm]; cbn [CompOpp];
      split; split; intros H; try discriminate; try congruence; try lia.
  - (* both positive *)
    change (Pos.compare_cont Eq mx my) with (Pos.compare mx my).
    eexists; split; [reflexivity|].
    destruct (Z.compare_spec ex ey) as [He|He|He];
      destruct (Pos.compare_spec mx my) as [Hm|Hm|Hm];
      split; split; intros H; try discriminate; try congruence; try lia.
Qed.

Lemma SFltb_rank x y :
  is_nan x = false -> is_nan y = false ->
  SFltb x y = true <-> lex_lt (rank x) (rank y).
Proof.
  intros Hx Hy. destruct (SFcompare_rank x y Hx Hy) as (c & Hc & Hlt & _).
  unfold SFltb. rewrite Hc. rewrite <- Hlt.
  destruct c; split; intros; congruence.
Qed.

Lemma SFleb_rank x y :
  is_nan x = false -> is_nan y = false ->
  SFleb x y = true <-> lex_le (rank x) (rank y).
Proof.
  intros Hx Hy. destruct (SFcompare_rank x y Hx Hy) as (c & Hc & _ & Hle).
  unfold SFleb. rewrite Hc. rewrite <- Hle.
  destruct c; split; intros; congruence.
Qed.

Lemma lex_le_refl p : lex_le p p.
Proof. destruct p as [[a b] c]. simpl. lia. Qed.

Lemma lex_le_trans p q r : lex_le p q -> lex_le q r -> lex_le p r.
Proof.
  destruct p as [[a b] c], q as [[a' b'] c'], r as [[a'' b''] c''].
  simpl. lia.
Qed.

Lemma lex_lt_le p q : lex_lt p q -> lex_le p q.
Proof. destruct p as [[a b] c], q as [[a' b'] c']. simpl. lia. Qed.

Lemma lex_total p q : lex_lt p q \/ lex_le q p.
Proof. destruct p as [[a b] c], q as [[a' b'] c']. simpl. lia. Qed.

(** **** [Math.min] and [Math.max] *)

Lemma le_refl x : is_nan x = false -> le x x.
Proof. intros H. unfold le. apply SFleb_rank; trivial. apply lex_le_refl. Qed.

Lemma le_trans x y z :
  is_nan x = false -> is_nan y = false -> is_nan z = false ->
  le x y -> le y z -> le x z.
Proof.
  unfold le. intros Hx Hy Hz. rewrite !SFleb_rank by trivial.
  apply lex_le_trans.
Qed.

Lemma lower_cases lowest x :
  is_nan lowest = false -> is_nan x = false ->
  (lower lowest x = lowest \/ lower lowest x = x)
  /\ le (lower lowest x) lowest /\ le (lower lowest x) x.
Proof.
  intros Hl Hx.
  assert (Hgen : (if SFltb x lowest then x else lowest) = lowest
                 \/ (if SFltb x lowest then x else lowest) = x).
  { destruct (SFltb x lowest); auto. }
  assert (Hle : le (if SFltb x lowest then x else lowest) lowest
                /\ le (if SFltb x lowest then x else lowest) x).
  { destruct (SFltb x lowest) eqn:E.
    - split; [|now apply le_refl].
      unfold le. apply SFleb_rank; trivial. apply lex_lt_le. now apply SFltb_rank.
    - split; [now apply le_refl|].
      unfold le. apply SFleb_rank; trivial.
      destruct (lex_total (rank x) (rank lowest)) as [H|H]; trivial.
      apply SFltb_rank in H; trivial. congruence. }
  destruct lowest as [[|]| | |]; destruct x as [[|]| | |];
    try discriminate; cbn [lower]; try (split; [exact Hgen|exact Hle]).
  split; [now right|]. split; reflexivity.
Qed.

Lemma higher_cases highest x :
  is_nan highest = false -> is_nan x = false ->
  (higher highest x = highest \/ higher highest x = x)
  /\ le highest (higher highest x) /\ le x (higher highest x).
Proof.
  intros Hh Hx.
  assert (Hgen : (if SFltb highest x then x else highest) = highest
                 \/ (if SFltb highest x then x else highest) = x).
  { destruct (SFltb highest x); auto. }
  assert (Hle : le highest (if SFltb highest x then x else highest)
                /\ le x (if SFltb highest x then x else highest)).
  { destruct (SFltb highest x) eqn:E.
    - split; [|now apply le_refl].
      unfold le. apply SFleb_rank; trivial. apply lex_lt_le. now apply SFltb_rank.
    - split; [now apply le_refl|].
      unfold le. apply SFleb_rank; trivial.
      destruct (lex_total (rank highest) (rank x)) as [H|H]; trivial.
      apply SFltb_rank in H; trivial. congruence. }
  destruct highest as [[|]| | |]; destruct x as [[|]| | |];
    try discriminate; cbn [higher]; try (split; [exact Hgen|exact Hle]).
  split; [now right|]. split; reflexivity.
Qed.

Lemma existsb_is_nan_false values :
  existsb is_nan values = false <-> Forall (fun x => is_nan x = false) values.
Proof.
  induction values as [|x values IH]; simpl.
  - split; [constructor|reflexivity].
  - rewrite orb_false_iff, IH. split.
    + intros [H1 H2]. now constructor.
    + intros H. inversion H; subst. now split.
Qed.

Lemma fold_lower values : forall init,
  is_nan init = false -> Forall (fun x => is_nan x = false) values ->
  let r := fold_left lower values init in
  is_nan r = false
  /\ (r = init \/ In r values)
  /\ le r init
  /\ (forall x, In x values -> le r x).
Proof.
  induction values as [|x values IH]; intros init Hi Hv; cbn [fold_left].
  - split; [exact Hi|]. split; [now left|]. split; [now apply le_refl|].
    intros x [].
  - inversion Hv as [|? ? Hx Hv']; subst.
    destruct (lower_cases init x Hi Hx) as (Hsel & Hli & Hlx).
    assert (Hn : is_nan (lower init x) = false)
      by (destruct Hsel as [-> | ->]; trivial).
    destruct (IH (lower init x) Hn Hv') as (Hr & Hin & Hle & Hall).
    split; [exact Hr|]. split; [|split].
    + destruct Hin as [Hin|Hin]; [|right; now right].
      rewrite Hin. destruct Hsel as [-> | ->]; [now left|right; now left].
    + eapply le_trans; [| | |exact Hle|exact Hli]; trivial.
    + intros y [<-|Hy]; [|now apply Hall].
      eapply le_trans; [| | |exact Hle|exact Hlx]; trivial.
Qed.

Lemma fold_higher values : forall init,
  is_nan init = false -> Forall (fun x => is_nan x = false) values ->
  let r := fold_left higher values init in
  is_nan r = false
  /\ (r = init \/ In r values)
  /\ le init r
  /\ (forall x, In x values -> le x r).
Proof.
  induction values as [|x values IH]; intros init Hi Hv; cbn [fold_left].
  - split; [exact Hi|]. split; [now left|]. split; [now apply le_refl|].
    intros x [].
  - inversion Hv as [|? ? Hx Hv']; subst.
    destruct (higher_cases init x Hi Hx) as (Hsel & Hli & Hlx).
    assert (Hn : is_nan (higher init x) = false)
      by (destruct Hsel as [-> | ->]; trivial).
    destruct (IH (higher init x) Hn Hv') as (Hr & Hin & Hle & Hall).
    split; [exact Hr|]. split; [|split].
    + destruct Hin as [Hin|Hin]; [|right; now right].
      rewrite Hin. destruct Hsel as [-> | ->]; [now left|right; now left].
    + eapply le_trans; [| | |exact Hli|exact Hle]; trivial.
    + intros y [<-|Hy]; [|now apply Hall].
      eapply le_trans; [| | |exact Hlx|exact Hle]; trivial.
Qed.

Lemma le_infinity_inv x :
  is_nan x = false -> le (S754_infinity false) x -> x = S754_infinity false.
Proof. destruct x as [s|[|]| |s m e]; try discriminate; reflexivity. Qed.

Lemma le_neg_infinity_inv x :
  is_nan x = false -> le x (S754_infinity true) -> x = S754_infinity true.
Proof.
  destruct x as [s|[|]| |s m e]; try discriminate; try reflexivity;
    destruct s; discriminate.
Qed.

(** [Math.min] of values none of which is [NaN] is the lowest of them. *)
Lemma Math_min_lowest values :
  values <> [] -> Forall (fun x => is_nan x = false) values ->
  In (Math_min values) values
  /\ forall x, In x values -> SFleb (Math_min values) x = true.
Proof.
  intros Hne Hv. unfold Math_min.
  rewrite (proj2 (existsb_is_nan_false values) Hv).
  destruct (fold_lower values (S754_infinity false) eq_refl Hv)
    as (_ & Hin & _ & Hall).
  split; [|exact Hall].
  destruct Hin as [Hin|Hin]; [|exact Hin].
  destruct values as [|x values]; [contradiction|].
  assert (Hx : x = S754_infinity false).
  { apply le_infinity_inv.
    - now inversion Hv.
    - rewrite <- Hin. apply Hall. now left. }
  rewrite Hin. left. exact Hx.
Qed.

(** [Math.max] of values none of which is [NaN] is the highest of them. *)
Lemma Math_max_highest values :
  values <> [] -> Forall (fun x => is_nan x = false) values ->
  In (Math_max values) values
  /\ forall x, In x values -> SFleb x (Math_max values) = true.
Proof.
  intros Hne Hv. unfold Math_max.
  rewrite (proj2 (existsb_is_nan_false values) Hv).
  destruct (fold_higher values (S754_infinity true) eq_refl Hv)
    as (_ & Hin & _ & Hall).
  split; [|exact Hall].
  destruct Hin as [Hin|Hin]; [|exact Hin].
  destruct values as [|x values]; [contradiction|].
  assert (Hx : x = S754_infinity true).
  { apply le_neg_infinity_inv.
    - now inversion Hv.
    - rewrite <- Hin. apply Hall. now left. }
  rewrite Hin. left. exact Hx.
Qed.

Lemma or_zero_not_nan x : is_nan (or_zero x) = false.
Proof. destruct x as [s|s| |s m e]; reflexivity. Qed.

End NumberFacts.

(* ================================================================= *)
(** ** The built-ins on small inputs *)

Module BuiltinExamples.
Import JS Scenario.
Local Open Scope string_scope.

Example trim_spaces : trim "  a b  " = "a b".
Proof. reflexivity. Qed.

Example trim_line_ends : trim (bytes [9; 32; 120; 13; 10]%N) = "x".
Proof. reflexivity. Qed.

(** U+00A0 and U+3000 are white space, in their UTF-8 bytes. *)
Example trim_unicode_spaces :
  trim (bytes [194; 160; 227; 128; 128]%N) = "".
Proof. reflexivity. Qed.

Example split_commas : split "," "a,b,,c" = ["a"; "b"; ""; "c"].
Proof. reflexivity. Qed.

Example split_empty : split "," "" = [""].
Proof. reflexivity. Qed.

Example slice_from_1 : slice [0; 1; 2; 3]%nat 1 None = [1; 2; 3]%nat.
Proof. reflexivity. Qed.

Example slice_1_to_6 :
  slice [0; 1; 2; 3; 4; 5; 6; 7]%nat 1 (Some 6%Z) = [1; 2; 3; 4; 5]%nat.
Proof. reflexivity. Qed.

Example slice_last_2 : slice [0; 1; 2; 3]%nat (-2) None = [2; 3]%nat.
Proof. reflexivity. Qed.

Example slice_last_beyond : slice [0; 1]%nat (-5) None = [0; 1]%nat.
Proof. reflexivity. Qed.

(** 10 is [5629499534213120 * 2^-49]. *)
Example parseFloat_10 :
  parseFloat (Some "10") = S754_finite false 5629499534213120 (-49).
Proof. reflexivity. Qed.

(** 0.1 is rounded to the nearest binary64 value. *)
Example parseFloat_tenth :
  parseFloat (Some "0.1") = S754_finite false 7205759403792794 (-56).
Proof. reflexivity. Qed.

Example parseFloat_prefix :
  parseFloat (Some " 12.5e1abc") = parseFloat (Some "125").
Proof. reflexivity. Qed.

Example parseFloat_no_number :
  map parseFloat [Some "abc"; Some ""; Some "."; Some "e5"; None]
  = [NaN; NaN; NaN; NaN; NaN].
Proof. reflexivity. Qed.

Example parseFloat_signed :
  map parseFloat [Some "-Infinity"; Some "-0"; Some "+.5"]
  = [S754_infinity true; S754_zero true; parseFloat (Some "0.5")].
Proof. reflexivity. Qed.

Example or_zero_coerces :
  map (fun v => Number_toString (or_zero (parseFloat v)))
      [Some "abc"; None; Some "-0"; Some "2.50"]
  = ["0"; "0"; "0"; "2.5"].
Proof. reflexivity. Qed.

Example Number_toString_decimals :
  map (fun s => Number_toString (parseFloat (Some s)))
      ["9"; "14"; "0.1"; "100.5"; "123456789.125"; "0.000001"]
  = ["9"; "14"; "0.1"; "100.5"; "123456789.125"; "0.000001"].
Proof. reflexivity. Qed.

Example Number_toString_exponents :
  map (fun s => Number_toString (parseFloat (Some s)))
      ["1e21"; "0.0000001"; "-1.5e-9"]
  = ["1e+21"; "1e-7"; "-1.5e-9"].
Proof. reflexivity. Qed.

Example Math_min_max_empty :
  Math_min [] = S754_infinity false /\ Math_max [] = S754_infinity true.
Proof. split; reflexivity. Qed.

End BuiltinExamples.

(* ================================================================= *)
(** ** Facts about the handlers *)

Module ChatFacts.
Import JS Chat Outcome JSFacts ArrayFacts.
Local Open Scope string_scope.

Ltac monad_step :=
  cbv beta iota zeta delta
    [bind ret throw try_catch rendered update setMessages setInput setCsvFile
     setLoading setBackendStatus setCsvPreview fetch Response_json text_of get
     split_comma console_log console_error append negb
     state requests messages input csvFile loading backendStatus csvPreview].

Ltac open_world w :=
  let msgs := fresh "msgs" in
  let typed := fresh "typed" in
  let file := fresh "file" in
  let ld := fresh "ld" in
  let status := fresh "status" in
  let pv := fresh "pv" in
  let reqs := fresh "reqs" in
  destruct w as [[msgs typed file ld status pv] reqs].

(** **** The rows converted *)

Lemma length_map_from {A B : Type} (f : nat -> A -> B) i l :
  List.length (map_from f i l) = List.length l.
Proof.
  revert i. induction l as [|a l IH]; intros i; simpl; [|rewrite IH]; reflexivity.
Qed.

Lemma nth_error_map_from {A B : Type} (f : nat -> A -> B) i l k :
  nth_error (map_from f i l) k = option_map (f (i + k)%nat) (nth_error l k).
Proof.
  revert i k. induction l as [|a l IH]; intros i [|k]; simpl; trivial.
  - now rewrite Nat.add_0_r.
  - rewrite IH. now rewrite Nat.add_succ_r.
Qed.

Lemma dataLines_tl lines : dataLines lines = tl lines.
Proof. apply slice_1. Qed.

Lemma linesToProcess_skipn lines :
  linesToProcess lines
  = skipn (List.length (dataLines lines) - minLines) (dataLines lines).
Proof.
  unfold linesToProcess.
  destruct (Nat.leb_spec minLines (List.length (dataLines lines))) as [H|H].
  - apply slice_last. unfold minLines. lia.
  - replace (List.length (dataLines lines) - minLines)%nat with 0%nat by lia.
    reflexivity.
Qed.

(** **** [checkBackendHealth] *)

Lemma checkBackendHealth_run env w :
  checkBackendHealth env w
  = (Return tt,
     after_health w
       match fetch_outcome env health_request with
       | None => disconnected
       | Some res =>
           if ok res
           then match json res with Some _ => connected | None => disconnected end
           else error
       end).
Proof.
  open_world w. unfold checkBackendHealth, after_health. monad_step.
  destruct (fetch_outcome env health_request) as [res|]; [|reflexivity].
  monad_step. destruct (ok res); [|reflexivity].
  destruct (json res); reflexivity.
Qed.

(** **** [handleCsvFileChange] *)

Lemma handleCsvFileChange_run file w :
  handleCsvFileChange file w
  = (Return tt,
     after_select w file
       match file with
       | None => None
       | Some f =>
           match File_text f with
           | None => None
           | Some text =>
               match lines_of text with
               | [] => None
               | line0 :: rest =>
                   Some {| headers := split "," line0;
                           preview := firstn 5 rest;
                           totalLines :=
                             (Z.of_nat (List.length (line0 :: rest)) - 1)%Z |}
               end
           end
       end).
Proof.
  open_world w. unfold handleCsvFileChange, after_select. monad_step.
  destruct file as [f|]; [|reflexivity].
  monad_step. destruct (File_text f) as [text|]; [|reflexivity].
  rewrite index_0, slice_1_6.
  destruct (lines_of text) as [|line0 rest]; reflexivity.
Qed.

(** **** [sendMessage] *)

Lemma sendMessage_blank env w :
  whitespace_only (input (state w)) -> sendMessage env w = (Return tt, w).
Proof.
  intros H. apply truthy_trim_false_iff in H.
  unfold sendMessage, bind, rendered. simpl. rewrite H. reflexivity.
Qed.

Lemma sendMessage_run env w :
  ~ whitespace_only (input (state w)) ->
  let req := chat_request (input (state w)) in
  sendMessage env w
  = (Return tt,
     after_send w
       [user_message (input (state w));
        match fetch_outcome env req with
        | None => system_message chat_error
        | Some res =>
            match json res with
            | None => system_message chat_error
            | Some data => reply_message data
            end
        end]
       [req]).
Proof.
  intros H req. subst req.
  assert (Ht : truthy_string (trim (input (state w))) = true).
  { destruct (truthy_string (trim (input (state w)))) eqn:E; trivial.
    apply truthy_trim_false_iff in E. contradiction. }
  open_world w. unfold sendMessage, after_send. monad_step.
  simpl in Ht. rewrite Ht. monad_step.
  destruct (fetch_outcome env (chat_request typed)) as [res|].
  - monad_step. destruct (json res) as [data|].
    + destruct data as [| |b|x|s|els|members]; monad_step;
        cbn [truthy]; monad_step; try (now rewrite <- app_assoc).
      unfold reply_message, assistant_message.
      destruct (truthy (member "response" members)); monad_step;
        now rewrite <- app_assoc.
    + monad_step. now rewrite <- app_assoc.
  - monad_step. now rewrite <- app_assoc.
Qed.

(** **** [uploadCSV] *)

Lemma uploadCSV_no_file env w :
  csvFile (state w) = None -> uploadCSV env w = (Return tt, w).
Proof.
  intros H. unfold uploadCSV, bind, rendered. simpl. rewrite H. reflexivity.
Qed.

Lemma uploadCSV_run env w file :
  csvFile (state w) = Some file ->
  uploadCSV env w
  = (Return tt,
     match File_text file with
     | None => after_upload w [system_message analyze_error] []
     | Some text =>
         match lines_of text with
         | [] => after_upload w [system_message analyze_error] []
         | _ :: _ =>
             let data := ohlcData (now env) (linesToProcess (lines_of text)) in
             let req := analyze_request (input (state w)) data in
             match fetch_outcome env req with
             | None => after_upload w [system_message analyze_error] [req]
             | Some res =>
                 match json res with
                 | None => after_upload w [system_message analyze_error] [req]
                 | Some answer =>
                     after_upload w (analysis_messages data answer) [req]
                 end
             end
         end
     end).
Proof.
  intros Hf. open_world w. simpl in Hf. subst file0.
  unfold uploadCSV, after_upload. monad_step.
  destruct (File_text file) as [text|];
    [|monad_step; now rewrite app_nil_r].
  monad_step. rewrite index_0.
  destruct (lines_of text) as [|line0 rest] eqn:Hl;
    [monad_step; now rewrite app_nil_r|].
  cbn [hd_error]. monad_step.
  set (data := ohlcData (now env) (linesToProcess (line0 :: rest))).
  destruct (fetch_outcome env (analyze_request typed data)) as [res|];
    [|reflexivity].
  monad_step. destruct (json res) as [answer|]; [|reflexivity].
  unfold analysis_messages, system_message, assistant_message.
  destruct answer as [| |b|x|s|els|members]; monad_step;
    try (now rewrite <- app_assoc); try reflexivity.
  destruct (truthy (member "analysis" members)); monad_step;
    [now rewrite <- app_assoc|reflexivity].
Qed.

(** **** No handler lets an exception escape *)

Lemma whitespace_only_dec s : {whitespace_only s} + {~ whitespace_only s}.
Proof.
  destruct (truthy_string (trim s)) eqn:E.
  - right. intros H. apply truthy_trim_false_iff in H. congruence.
  - left. now apply truthy_trim_false_iff.
Qed.

Lemma handlers_return env file w :
  fst (checkBackendHealth env w) = Return tt
  /\ fst (handleCsvFileChange file w) = Return tt
  /\ fst (sendMessage env w) = Return tt
  /\ fst (uploadCSV env w) = Return tt.
Proof.
  split; [now rewrite checkBackendHealth_run|].
  split; [now rewrite handleCsvFileChange_run|]. split.
  - destruct (whitespace_only_dec (input (state w))) as [H|H].
    + now rewrite (sendMessage_blank env w H).
    + now rewrite (sendMessage_run env w H).
  - destruct (csvFile (state w)) as [f|] eqn:Hf.
    + now rewrite (uploadCSV_run env w f Hf).
    + now rewrite (uploadCSV_no_file env w Hf).
Qed.

End ChatFacts.

(* ================================================================= *)
(** ** The properties of the specification *)

Import JS Chat Outcome Scenario JSFacts ArrayFacts NumberFacts ChatFacts.
Local Open Scope string_scope.
Local Open Scope list_scope.

(** *** The converter *)

(** C2.  A CSV text whose non-empty lines are a header and [N >= 1] data
    lines: the converter selects [min N 50] of the data lines; they are the
    end of the data lines, in the order of the file (what was skipped comes
    before them), and when [N > 50] they are the last 50.  The records are
    the selected lines converted one by one, in that order. *)
Theorem C2_converter_keeps_last_50 (text line0 : string) (data : list string) :
  lines_of text = line0 :: data ->
  (1 <= List.length data)%nat ->
  let N := List.length data in
  let selected := linesToProcess (lines_of text) in
  List.length selected = Nat.min N 50
  /\ (exists skipped, data = skipped ++ selected)
  /\ ((50 < N)%nat -> selected = skipn (N - 50) data /\ List.length selected = 50%nat)
  /\ (forall clock,
        List.length (ohlcData clock selected) = Nat.min N 50
        /\ forall i line,
             nth_error selected i = Some line ->
             nth_error (ohlcData clock selected) i
             = Some (record_of_line (clock i) line)).
Proof.
  intros Hl H1 N selected. subst N selected.
  rewrite linesToProcess_skipn, dataLines_tl, Hl. cbn [tl].
  change minLines with 50%nat.
  assert (Hlen : List.length (skipn (List.length data - 50) data)
                 = Nat.min (List.length data) 50).
  { rewrite length_skipn. lia. }
  split; [exact Hlen|]. split; [|split].
  - exists (firstn (List.length data - 50) data). symmetry. apply firstn_skipn.
  - intros H50. split; [reflexivity|]. rewrite Hlen. lia.
  - intros clock. unfold ohlcData. split.
    + now rewrite length_map_from.
    + intros i line Hi. rewrite nth_error_map_from, Hi. reflexivity.
Qed.

Lemma C2_witness :
  List.length (data_of (csv_rows 51)) = 51%nat
  /\ List.length (linesToProcess (lines_of (csv_rows 51))) = 50%nat
  /\ linesToProcess (lines_of (csv_rows 51)) = skipn 1 (data_of (csv_rows 51))
  /\ hd_error (linesToProcess (lines_of (csv_rows 51))) = Some "r1,1,3,0.5,2,7".
Proof.
  split; [reflexivity|].
  destruct (C2_converter_keeps_last_50 (csv_rows 51) header
              (data_of (csv_rows 51)) eq_refl)
    as (Hlen & _ & H50 & _).
  - vm_compute. lia.
  - split; [exact Hlen|]. split; [|reflexivity].
    apply H50. vm_compute. lia.
Defined.

(** C7.  Each selected line is split on commas and converted by position:
    column 0 is the timestamp, and the clock reading of that row stands in
    when the column is empty; columns 1 to 4 are open, high, low and close
    and column 5 is the volume, each the parsed Number, and 0 where parsing
    failed ([NaN], as for a column that is absent or empty) or gave a zero.
    No field is [NaN]. *)
Theorem C7_record_by_position (clock : nat -> string) (selected : list string)
    (i : nat) (line : string) :
  nth_error selected i = Some line ->
  let column k := nth_error (split "," line) k in
  exists r,
    nth_error (ohlcData clock selected) i = Some r
    /\ (exists v, column 0%nat = Some v
                  /\ t r = if String.eqb v "" then clock i else v)
    /\ coerced (column 1%nat) (open r)
    /\ coerced (column 2%nat) (high r)
    /\ coerced (column 3%nat) (low r)
    /\ coerced (column 4%nat) (close r)
    /\ coerced (column 5%nat) (volume r)
    /\ (forall k, column k = None \/ column k = Some "" ->
                  parseFloat (column k) = NaN)
    /\ is_nan (open r) = false /\ is_nan (high r) = false
    /\ is_nan (low r) = false /\ is_nan (close r) = false
    /\ is_nan (volume r) = false.
Proof.
  intros Hi column.
  exists (record_of_line (clock i) line). split.
  { unfold ohlcData. rewrite nth_error_map_from, Hi. reflexivity. }
  assert (Hc : forall v, coerced v (or_zero (parseFloat v))).
  { intros v. unfold coerced, or_zero.
    destruct (parseFloat v) as [s|s| |s m e]; cbn;
      repeat split; intros; try discriminate; reflexivity. }
  unfold record_of_line. cbn [t open high low close volume].
  repeat match goal with
         | |- context [index ?l ?k] =>
             change (index l k) with (nth_error l (Z.to_nat k))
         end.
  cbn [Z.to_nat Pos.to_nat Pos.iter_op Nat.add].
  fold (column 0%nat) (column 1%nat) (column 2%nat) (column 3%nat)
       (column 4%nat) (column 5%nat).
  split.
  { subst column. cbn beta.
    destruct (split "," line) as [|v rest] eqn:Hs.
    - destruct line as [|c line]; cbn in Hs; [discriminate|].
      destruct (Ascii.eqb c ","); [discriminate|].
      destruct (split "," line); discriminate.
    - exists v. split; [reflexivity|]. cbn [nth_error].
      unfold truthy_string. destruct (String.eqb v ""); reflexivity. }
  repeat (split; [apply Hc|]).
  split.
  { intros k [-> | ->]; reflexivity. }
  repeat split; apply or_zero_not_nan.
Qed.

Lemma C7_witness :
  let r := record_of_line (clock 0) ",abc,1e3,-.5x,Infinity" in
  nth_error (ohlcData clock [",abc,1e3,-.5x,Infinity"]) 0 = Some r
  /\ t r = clock 0
  /\ open r = zero
  /\ Number_toString (high r) = "1000"
  /\ Number_toString (low r) = "-0.5"
  /\ close r = Infinity
  /\ volume r = zero.
Proof.
  destruct (C7_record_by_position clock [",abc,1e3,-.5x,Infinity"] 0
              ",abc,1e3,-.5x,Infinity" eq_refl)
    as (r & Hr & (v & Hv & Ht) & Ho & _ & _ & _ & (Hvol & _) & _).
  injection Hr as <-. injection Hv as <-.
  split; [reflexivity|]. split; [exact Ht|].
  split; [apply Ho; reflexivity|].
  split; [reflexivity|]. split; [reflexivity|]. split; [reflexivity|].
  apply Hvol. reflexivity.
Defined.

(** *** The two actions *)

(** C5.  [sendMessage] with an input that is empty or white space only, and
    [uploadCSV] with no file selected, return at once: the state (messages,
    input, file, loading flag, status, preview) and the requests issued are
    what they were. *)
Theorem C5_guards_are_no_ops (env : Env) (w : World) :
  (whitespace_only (input (state w)) -> sendMessage env w = (Return tt, w))
  /\ (csvFile (state w) = None -> uploadCSV env w = (Return tt, w)).
Proof.
  split; [apply sendMessage_blank|apply uploadCSV_no_file].
Qed.

Lemma C5_witness :
  let w := at_start (state_with None (" " ++ nl)) in
  whitespace_only (input (state w))
  /\ csvFile (state w) = None
  /\ sendMessage offline w = (Return tt, w)
  /\ uploadCSV offline w = (Return tt, w).
Proof.
  intros w.
  assert (Hws : whitespace_only (input (state w))).
  { cbn. apply ws_one; [reflexivity|]. apply ws_one; [reflexivity|].
    apply ws_empty. }
  split; [exact Hws|]. split; [reflexivity|].
  destruct (C5_guards_are_no_ops offline w) as [Hsend Hupload].
  split; [apply Hsend; exact Hws|apply Hupload; reflexivity].
Defined.

(** C6.  [sendMessage] with an input that is not blank returns, with the
    input cleared and the loading flag false, whatever the request did; when
    the chat request failed (the fetch rejected or the body was not JSON),
    the messages appended are the user message and then one system message
    with the fixed error text. *)
Theorem C6_send_failure (env : Env) (w : World) :
  ~ whitespace_only (input (state w)) ->
  let req := chat_request (input (state w)) in
  let w' := snd (sendMessage env w) in
  fst (sendMessage env w) = Return tt
  /\ input (state w') = ""
  /\ loading (state w') = false
  /\ requests w' = requests w ++ [req]
  /\ (exists reply,
        messages (state w')
        = messages (state w) ++ [user_message (input (state w)); reply])
  /\ (request_failed env req ->
      messages (state w')
      = messages (state w)
          ++ [user_message (input (state w)); system_message chat_error]).
Proof.
  intros H req w'. subst w'. rewrite (sendMessage_run env w H). fold req.
  cbn [fst snd after_send state input loading requests messages].
  repeat (split; [reflexivity|]). split; [eexists; reflexivity|].
  intros [Hf | (res & Hf & Hj)]; rewrite Hf; [|rewrite Hj]; reflexivity.
Qed.

Lemma C6_witness :
  let w := at_start (state_with None "hi") in
  let w' := snd (sendMessage offline w) in
  ~ whitespace_only (input (state w))
  /\ request_failed offline (chat_request "hi")
  /\ messages (state w')
     = [user_message "hello"; user_message "hi"; system_message chat_error]
  /\ input (state w') = ""
  /\ loading (state w') = false.
Proof.
  intros w w'.
  assert (Hnw : ~ whitespace_only (input (state w))).
  { intros Hw. apply trim_empty_iff in Hw. discriminate Hw. }
  assert (Hfail : request_failed offline (chat_request "hi")) by (left; reflexivity).
  split; [exact Hnw|]. split; [exact Hfail|].
  destruct (C6_send_failure offline w Hnw) as (_ & Hi & Hl & _ & _ & Hm).
  split; [exact (Hm Hfail)|]. split; [exact Hi|exact Hl].
Defined.

(** C9.  [uploadCSV] leaves the input as it was, on every outcome; what it
    issues is at most one request, whose question is the input, or the
    default phrase when the input is empty.  [checkBackendHealth] and
    [handleCsvFileChange] leave the input as it was too; [sendMessage]
    clears it when it sends. *)
Theorem C9_upload_keeps_input (env : Env) (w : World) :
  input (state (snd (uploadCSV env w))) = input (state w)
  /\ (exists issued,
        requests (snd (uploadCSV env w)) = requests w ++ issued
        /\ (List.length issued <= 1)%nat
        /\ forall req, In req issued ->
             exists ohlc_json,
               body req
               = [("question",
                   if String.eqb (input (state w)) ""
                   then "Analyze this CSV data" else input (state w));
                  ("ohlc_json", ohlc_json)])
  /\ (forall file,
        input (state (snd (handleCsvFileChange file w))) = input (state w))
  /\ input (state (snd (checkBackendHealth env w))) = input (state w)
  /\ (~ whitespace_only (input (state w)) ->
      input (state (snd (sendMessage env w))) = "").
Proof.
  assert (Hq : forall s, question_of s
                         = if String.eqb s "" then "Analyze this CSV data" else s).
  { intros s. unfold question_of, truthy_string. now destruct (String.eqb s ""). }
  assert (Hup : exists added issued,
             snd (uploadCSV env w) = w /\ issued = []
             \/ snd (uploadCSV env w) = after_upload w added issued
                /\ (issued = []
                    \/ exists data,
                         issued = [analyze_request (input (state w)) data])).
  { destruct (csvFile (state w)) as [file|] eqn:Hf.
    - rewrite (uploadCSV_run env w file Hf). cbn [snd].
      destruct (File_text file) as [text|]; [|eauto 6].
      destruct (lines_of text); [eauto 6|]. cbv zeta.
      destruct (fetch_outcome env _) as [res|]; [|eauto 8].
      destruct (json res); eauto 8.
    - rewrite (uploadCSV_no_file env w Hf). exists [], []. now left. }
  split; [|split; [|split; [|split]]].
  - destruct Hup as (added & issued & [[-> _]|[-> _]]); reflexivity.
  - destruct Hup as (added & issued & [[-> ->]|[-> Hi]]).
    + exists []. rewrite app_nil_r. split; [reflexivity|]. split; [cbn; lia|].
      intros req [].
    + exists issued. split; [reflexivity|].
      destruct Hi as [-> | (data & ->)].
      * split; [cbn; lia|]. intros req [].
      * split; [cbn; lia|]. intros req [<-|[]].
        eexists. cbn [analyze_request body]. rewrite Hq. reflexivity.
  - intros file. rewrite handleCsvFileChange_run. reflexivity.
  - rewrite checkBackendHealth_run. reflexivity.
  - intros H. rewrite (sendMessage_run env w H). reflexivity.
Qed.

Lemma C9_witness :
  let w := at_start (state_with (Some (file_of csv3)) "hi") in
  ~ whitespace_only (input (state w))
  /\ input (state (snd (uploadCSV (answering analysis_response) w))) = "hi"
  /\ input (state (snd (sendMessage (answering analysis_response) w))) = "".
Proof.
  intros w.
  assert (Hnw : ~ whitespace_only (input (state w))).
  { intros Hw. apply trim_empty_iff in Hw. discriminate Hw. }
  destruct (C9_upload_keeps_input (answering analysis_response) w)
    as (Hup & _ & _ & _ & Hsend).
  split; [exact Hnw|]. split; [exact Hup|]. exact (Hsend Hnw).
Defined.

(** C1, as amended.  [uploadCSV] with a selected file that has a header line
    issues the analyze request.  When the request fails (the fetch rejects
    or the body is not JSON) one message is appended, the system error
    message, and no summary.  When it is answered with an object whose
    [analysis] is truthy, two messages are appended: the system summary of
    the converted records first, then the assistant message with that
    analysis. *)
Theorem C1_analyze_messages (env : Env) (w : World) (file : File) (text : string) :
  csvFile (state w) = Some file ->
  File_text file = Some text ->
  lines_of text <> [] ->
  let data := ohlcData (now env) (linesToProcess (lines_of text)) in
  let req := analyze_request (input (state w)) data in
  let w' := snd (uploadCSV env w) in
  requests w' = requests w ++ [req]
  /\ (request_failed env req ->
      messages (state w') = messages (state w) ++ [system_message analyze_error])
  /\ (forall res members,
        fetch_outcome env req = Some res ->
        json res = Some (Obj members) ->
        truthy (member "analysis" members) = true ->
        messages (state w')
        = messages (state w)
            ++ [system_message (summary data);
                assistant_message (member "analysis" members)]).
Proof.
  intros Hf Ht Hl data req w'. subst w'.
  rewrite (uploadCSV_run env w file Hf), Ht.
  destruct (lines_of text) as [|line0 rest] eqn:El; [contradiction|].
  cbv zeta. fold data. fold req. cbn [snd]. split; [|split].
  - destruct (fetch_outcome env req) as [res|]; [|reflexivity].
    destruct (json res); reflexivity.
  - intros [Hr | (res & Hr & Hj)]; rewrite Hr; [|rewrite Hj]; reflexivity.
  - intros res members Hr Hj Ha. rewrite Hr, Hj.
    cbn [after_upload state messages]. unfold analysis_messages.
    now rewrite Ha.
Qed.

Lemma C1_witness :
  let w := at_start (state_with (Some (file_of csv3)) "") in
  lines_of csv3 <> []
  /\ messages (state (snd (uploadCSV (answering analysis_response) w)))
     = [user_message "hello"; system_message summary3;
        assistant_message (Str "Prices rise.")]
  /\ messages (state (snd (uploadCSV offline w)))
     = [user_message "hello"; system_message analyze_error].
Proof.
  intros w.
  assert (Hl : lines_of csv3 <> []) by discriminate.
  split; [exact Hl|]. split.
  - destruct (C1_analyze_messages (answering analysis_response) w
                (file_of csv3) csv3 eq_refl eq_refl Hl) as (_ & _ & Hok).
    exact (Hok analysis_response [("analysis", Str "Prices rise.")]
             eq_refl eq_refl eq_refl).
  - destruct (C1_analyze_messages offline w (file_of csv3) csv3
                eq_refl eq_refl Hl) as (_ & Hfail & _).
    apply Hfail. left. reflexivity.
Defined.

(** C1 as stated fails.  With the three-row file selected and no backend,
    the analyze request is issued and rejects; one message is appended, the
    error message: not two, and no summary before it.  And a request
    answered with an object that has no [analysis] appends the summary
    alone, with no assistant message. *)
Lemma C1_counterexample :
  let w := at_start (state_with (Some (file_of csv3)) "") in
  let req := analyze_request "" three_records in
  (requests (snd (uploadCSV offline w)) = [req]
   /\ fetch_outcome offline req = None
   /\ messages (state (snd (uploadCSV offline w)))
      = messages (state w) ++ [system_message analyze_error]
   /\ ~ (exists m1 m2,
           messages (state (snd (uploadCSV offline w)))
           = messages (state w) ++ [m1; m2]))
  /\ (fetch_outcome (answering empty_object_response) req
      = Some empty_object_response
      /\ messages (state (snd (uploadCSV (answering empty_object_response) w)))
         = messages (state w) ++ [system_message summary3]).
Proof.
  intros w req. split.
  - split; [reflexivity|]. split; [reflexivity|]. split; [reflexivity|].
    intros (m1 & m2 & H). discriminate H.
  - split; reflexivity.
Qed.

(** *** The connection monitor *)

(** C3, as amended.  After the health check: a response that is ok (2xx)
    and whose body is JSON gives [connected]; a response that is ok and whose
    body is not JSON gives [disconnected]; a fetch that rejects gives
    [disconnected]; a response that is not ok gives [error], whatever its
    body.  One health request is issued, and nothing else of the state
    changes. *)
Theorem C3_health_status (env : Env) (w : World) :
  let w' := snd (checkBackendHealth env w) in
  (forall res data,
     fetch_outcome env health_request = Some res ->
     ok res = true -> json res = Some data ->
     backendStatus (state w') = connected)
  /\ (forall res,
        fetch_outcome env health_request = Some res ->
        ok res = true -> json res = None ->
        backendStatus (state w') = disconnected)
  /\ (fetch_outcome env health_request = None ->
      backendStatus (state w') = disconnected)
  /\ (forall res,
        fetch_outcome env health_request = Some res ->
        ok res = false ->
        backendStatus (state w') = error)
  /\ w' = after_health w (backendStatus (state w')).
Proof.
  intros w'. subst w'. rewrite checkBackendHealth_run. cbn [snd].
  cbn [after_health state backendStatus].
  split; [|split; [|split; [|split]]].
  - intros res data -> -> ->. reflexivity.
  - intros res -> -> ->. reflexivity.
  - intros ->. reflexivity.
  - intros res -> ->. reflexivity.
  - reflexivity.
Qed.

Lemma C3_witness :
  let w := at_start initial in
  backendStatus (state (snd (checkBackendHealth (answering analysis_response) w)))
  = connected
  /\ backendStatus (state (snd (checkBackendHealth offline w))) = disconnected
  /\ backendStatus
       (state (snd (checkBackendHealth
                      (answering {| ok := false; json := Some Null |}) w)))
     = error.
Proof.
  intros w. split; [|split].
  - destruct (C3_health_status (answering analysis_response) w) as (H & _).
    exact (H analysis_response _ eq_refl eq_refl eq_refl).
  - destruct (C3_health_status offline w) as (_ & _ & H & _).
    exact (H eq_refl).
  - destruct (C3_health_status (answering {| ok := false; json := Some Null |}) w)
      as (_ & _ & _ & H & _).
    exact (H _ eq_refl eq_refl).
Defined.

(** C3 as stated fails.  Two responses with a 2xx status that differ in the
    body only: the one whose body is JSON gives [connected], the one whose
    body is not JSON gives [disconnected]. *)
Lemma C3_counterexample :
  let w := at_start initial in
  ok plain_text_response = true
  /\ ok analysis_response = true
  /\ backendStatus
       (state (snd (checkBackendHealth (answering analysis_response) w)))
     = connected
  /\ backendStatus
       (state (snd (checkBackendHealth (answering plain_text_response) w)))
     = disconnected
  /\ backendStatus
       (state (snd (checkBackendHealth (answering plain_text_response) w)))
     <> connected.
Proof.
  intros w. repeat split; try reflexivity. discriminate.
Qed.

(** *** The preview *)

(** C8, as amended.  For a selected file whose text has at least one
    non-empty line, the preview has line 0 split on commas as headers, the
    lines 1 to 5 (fewer when there are fewer) as preview rows, and the
    number of non-empty lines minus one as [totalLines].  The preview is
    cleared when no file is passed, when the text cannot be read, and when
    the text has no non-empty line.  In every case the file passed becomes
    the selected file and nothing else changes. *)
Theorem C8_preview (w : World) :
  (forall file text line0 rest,
     File_text file = Some text ->
     lines_of text = line0 :: rest ->
     csvPreview (state (snd (handleCsvFileChange (Some file) w)))
     = Some {| headers := split "," line0;
               preview := firstn 5 rest;
               totalLines := (Z.of_nat (List.length (lines_of text)) - 1)%Z |})
  /\ csvPreview (state (snd (handleCsvFileChange None w))) = None
  /\ (forall file,
        File_text file = None ->
        csvPreview (state (snd (handleCsvFileChange (Some file) w))) = None)
  /\ (forall file text,
        File_text file = Some text ->
        lines_of text = [] ->
        csvPreview (state (snd (handleCsvFileChange (Some file) w))) = None)
  /\ (forall file,
        snd (handleCsvFileChange file w)
        = after_select w file
            (csvPreview (state (snd (handleCsvFileChange file w))))).
Proof.
  split; [|split; [|split; [|split]]].
  - intros file text line0 rest Ht Hl.
    rewrite handleCsvFileChange_run, Ht, Hl. reflexivity.
  - rewrite handleCsvFileChange_run. reflexivity.
  - intros file Ht. rewrite handleCsvFileChange_run, Ht. reflexivity.
  - intros file text Ht Hl. rewrite handleCsvFileChange_run, Ht, Hl. reflexivity.
  - intros file. rewrite handleCsvFileChange_run. reflexivity.
Qed.

Lemma C8_witness :
  let w := at_start initial in
  csvPreview (state (snd (handleCsvFileChange (Some (file_of (csv_rows 7))) w)))
  = Some {| headers := ["timestamp"; "open"; "high"; "low"; "close"; "volume"];
            preview := ["r0,1,3,0.5,2,7"; "r1,1,3,0.5,2,7"; "r2,1,3,0.5,2,7";
                        "r3,1,3,0.5,2,7"; "r4,1,3,0.5,2,7"];
            totalLines := 7 |}
  /\ csvPreview (state (snd (handleCsvFileChange (Some unreadable_file) w)))
     = None.
Proof.
  intros w. destruct (C8_preview w) as (Hok & _ & Hunreadable & _). split.
  - exact (Hok (file_of (csv_rows 7)) (csv_rows 7) header
             (data_of (csv_rows 7)) eq_refl eq_refl).
  - exact (Hunreadable unreadable_file eq_refl).
Defined.

(** C8 as stated fails.  A selected file whose text is readable and has no
    non-empty line (here the empty text, and a text of blank lines) gets no
    preview: neither headers nor a [totalLines] of minus one. *)
Lemma C8_counterexample :
  let w := at_start initial in
  File_text (file_of "") = Some ""
  /\ lines_of "" = []
  /\ csvPreview (state (snd (handleCsvFileChange (Some (file_of "")) w))) = None
  /\ csvPreview
       (state (snd (handleCsvFileChange (Some (file_of (" " ++ nl ++ nl))) w)))
     = None
  /\ ~ (exists headers rows,
          csvPreview (state (snd (handleCsvFileChange (Some (file_of "")) w)))
          = Some {| headers := headers; preview := rows;
                    totalLines := (Z.of_nat (List.length (lines_of "")) - 1)%Z |}).
Proof.
  intros w. repeat split. intros (headers & rows & H). discriminate H.
Qed.

(** *** A file with a header only *)

(** C10.  For a selected file whose text has one non-empty line, [uploadCSV]
    is not a no-op: it issues the analyze request, whose [ohlc_json] is the
    empty array; when the request is answered with JSON, the first message
    appended is the system summary of no record: 0 lines processed, the
    date range [undefined to undefined], the price range from [Infinity] to
    [-Infinity] (the minimum and the maximum of no value). *)
Theorem C10_header_only (env : Env) (w : World) (file : File) (text line0 : string) :
  csvFile (state w) = Some file ->
  File_text file = Some text ->
  lines_of text = [line0] ->
  let req := analyze_request (input (state w)) [] in
  let w' := snd (uploadCSV env w) in
  ohlcData (now env) (linesToProcess (lines_of text)) = []
  /\ requests w' = requests w ++ [req]
  /\ body req = [("question", question_of (input (state w))); ("ohlc_json", "[]")]
  /\ w' <> w
  /\ (forall res data,
        fetch_outcome env req = Some res ->
        json res = Some data ->
        exists rest,
          messages (state w')
          = messages (state w) ++ system_message (summary []) :: rest)
  /\ summary [] = summary0
  /\ Math_min [] = S754_infinity false
  /\ Math_max [] = S754_infinity true.
Proof.
  intros Hf Ht Hl req w'. subst w'.
  rewrite (uploadCSV_run env w file Hf), Ht, Hl.
  change (ohlcData (now env) (linesToProcess [line0])) with (@nil OhlcRecord).
  cbv zeta. fold req. cbn [snd].
  assert (Hreq : requests
                   match fetch_outcome env req with
                   | Some res =>
                       match json res with
                       | Some answer =>
                           after_upload w (analysis_messages [] answer) [req]
                       | None => after_upload w [system_message analyze_error] [req]
                       end
                   | None => after_upload w [system_message analyze_error] [req]
                   end
                 = requests w ++ [req]).
  { destruct (fetch_outcome env req) as [res|]; [|reflexivity].
    destruct (json res); reflexivity. }
  split; [reflexivity|]. split; [exact Hreq|]. split; [reflexivity|].
  split; [|split; [|repeat split]].
  - intros Heq. rewrite Heq in Hreq.
    apply (f_equal (@List.length Request)) in Hreq.
    rewrite length_app in Hreq. cbn in Hreq. lia.
  - intros res data Hr Hj. rewrite Hr, Hj.
    cbn [after_upload state messages]. unfold analysis_messages.
    eexists. reflexivity.
Qed.

Lemma C10_witness :
  let w := at_start (state_with (Some (file_of header)) "") in
  lines_of header = [header]
  /\ requests (snd (uploadCSV (answering analysis_response) w))
     = [analyze_request "" []]
  /\ body (analyze_request "" [])
     = [("question", "Analyze this CSV data"); ("ohlc_json", "[]")]
  /\ exists rest,
       messages (state (snd (uploadCSV (answering analysis_response) w)))
       = messages (state w) ++ system_message summary0 :: rest.
Proof.
  intros w.
  destruct (C10_header_only (answering analysis_response) w (file_of header)
              header header eq_refl eq_refl eq_refl)
    as (_ & Hreq & Hbody & _ & Hmsg & Hsum & _).
  split; [reflexivity|]. split; [exact Hreq|]. split; [exact Hbody|].
  destruct (Hmsg analysis_response _ eq_refl eq_refl) as (rest & Hrest).
  exists rest. rewrite <- Hsum. exact Hrest.
Defined.

(** *** The summary *)

Lemma converted_not_nan (clock : nat -> string) (selected : list string) :
  Forall (fun x => is_nan x = false) (map low (ohlcData clock selected))
  /\ Forall (fun x => is_nan x = false) (map high (ohlcData clock selected)).
Proof.
  unfold ohlcData. generalize 0%nat.
  induction selected as [|line selected IH]; intros i; cbn [map_from map].
  - split; constructor.
  - destruct (IH (S i)) as [Hlow Hhigh].
    split; constructor; trivial; apply or_zero_not_nan.
Qed.

(** The price range at the end of the summary of converted records, at
    least one: its ends are the lowest [low] and the highest [high]. *)
Lemma summary_of_converted (clock : nat -> string) (selected : list string) :
  selected <> [] ->
  let records := ohlcData clock selected in
  exists lo hi,
    (exists lines,
       summary records
       = lines ++ "- Price range: $" ++ Number_toString lo
           ++ " - $" ++ Number_toString hi)%string
    /\ lo = Math_min (map low records)
    /\ hi = Math_max (map high records)
    /\ (exists r, In r records /\ low r = lo)
    /\ (forall r, In r records -> le lo (low r))
    /\ (exists r, In r records /\ high r = hi)
    /\ (forall r, In r records -> le (high r) hi).
Proof.
  intros Hne records.
  assert (Hrec : records <> []).
  { subst records. unfold ohlcData. destruct selected; [contradiction|].
    discriminate. }
  destruct (converted_not_nan clock selected) as [Hlow Hhigh].
  fold records in Hlow, Hhigh.
  assert (Hl : map low records <> []) by (destruct records; [contradiction|discriminate]).
  assert (Hh : map high records <> []) by (destruct records; [contradiction|discriminate]).
  destruct (Math_min_lowest (map low records) Hl Hlow) as [Hin_lo Hle_lo].
  destruct (Math_max_highest (map high records) Hh Hhigh) as [Hin_hi Hle_hi].
  exists (Math_min (map low records)), (Math_max (map high records)).
  split; [|split; [reflexivity|split; [reflexivity|split; [|split; [|split]]]]].
  - unfold summary.
    exists ("📊 CSV uploaded and analyzed" ++ nl ++ nl
              ++ "📈 Data Summary:" ++ nl
              ++ "- Total lines processed: "
              ++ decimal_of_N (N.of_nat (List.length records)) ++ nl
              ++ "- Date range: " ++ template_t (index records 0)
              ++ " to "
              ++ template_t
                   (index records (Z.of_nat (List.length records) - 1))
              ++ nl)%string.
    repeat rewrite append_assoc. reflexivity.
  - apply in_map_iff in Hin_lo. destruct Hin_lo as (r & Hr & Hin). eauto.
  - intros r Hr. apply Hle_lo. now apply in_map.
  - apply in_map_iff in Hin_hi. destruct Hin_hi as (r & Hr & Hin). eauto.
  - intros r Hr. apply Hle_hi. now apply in_map.
Qed.

(** What [uploadCSV] appends first once its request was answered with
    JSON: the system message that holds the summary of the records sent. *)
Lemma uploadCSV_appends_summary (env : Env) (w : World) (file : File)
    (text : string) (res : Response) (data : Value) :
  csvFile (state w) = Some file ->
  File_text file = Some text ->
  lines_of text <> [] ->
  let records := ohlcData (now env) (linesToProcess (lines_of text)) in
  fetch_outcome env (analyze_request (input (state w)) records) = Some res ->
  json res = Some data ->
  exists rest,
    messages (state (snd (uploadCSV env w)))
    = messages (state w) ++ system_message (summary records) :: rest.
Proof.
  intros Hf Ht Hl records Hr Hj.
  rewrite (uploadCSV_run env w file Hf), Ht.
  destruct (lines_of text) as [|line0 others] eqn:El; [contradiction|].
  cbv zeta. fold records. rewrite Hr, Hj.
  cbn [snd after_upload state messages]. unfold analysis_messages.
  eexists. reflexivity.
Qed.

(** C4.  Whenever [uploadCSV] runs with a file selected, converts at least
    one record and has its request answered with JSON, the message it
    appends first is the system message with the summary of the records
    sent, and that summary ends with the price range from [lo] to [hi],
    where [lo] is the [low] of one of the records and is below or equal to
    the [low] of every record, and [hi] is the [high] of one of the records
    and is above or equal to the [high] of every record.  For the three-row
    scenario the converter yields the three records in the order of the
    rows, and the summary message appended reports the range [$9 - $14].
    The same holds of the summary of the records converted from any selected
    lines, at least one. *)
Theorem C4_summary_price_range :
  (forall (env : Env) (w : World) (file : File) (text : string)
          (res : Response) (data : Value),
     csvFile (state w) = Some file ->
     File_text file = Some text ->
     let records := ohlcData (now env) (linesToProcess (lines_of text)) in
     records <> [] ->
     fetch_outcome env (analyze_request (input (state w)) records) = Some res ->
     json res = Some data ->
     exists lo hi lines rest,
       messages (state (snd (uploadCSV env w)))
       = messages (state w)
           ++ system_message
                (lines ++ "- Price range: $" ++ Number_toString lo
                   ++ " - $" ++ Number_toString hi)
              :: rest
       /\ (lines ++ "- Price range: $" ++ Number_toString lo
             ++ " - $" ++ Number_toString hi)%string
          = summary records
       /\ lo = Math_min (map low records)
       /\ hi = Math_max (map high records)
       /\ (exists r, In r records /\ low r = lo)
       /\ (forall r, In r records -> le lo (low r))
       /\ (exists r, In r records /\ high r = hi)
       /\ (forall r, In r records -> le (high r) hi))
  /\ (forall (env : Env) (w : World) (file : File)
             (res : Response) (data : Value),
        csvFile (state w) = Some file ->
        File_text file = Some csv3 ->
        let records := ohlcData (now env) (linesToProcess (lines_of csv3)) in
        fetch_outcome env (analyze_request (input (state w)) records) = Some res ->
        json res = Some data ->
        records
        = [row "t1" "10" "12" "9" "11" "100";
           row "t2" "11" "13" "10" "12" "110";
           row "t3" "12" "14" "11" "13" "120"]
        /\ exists rest,
             messages (state (snd (uploadCSV env w)))
             = messages (state w) ++ system_message summary3 :: rest)
  /\ (forall (clock : nat -> string) (selected : list string),
        selected <> [] ->
        let records := ohlcData clock selected in
        exists lo hi,
          (exists lines,
             summary records
             = lines ++ "- Price range: $" ++ Number_toString lo
                 ++ " - $" ++ Number_toString hi)%string
          /\ lo = Math_min (map low records)
          /\ hi = Math_max (map high records)
          /\ (exists r, In r records /\ low r = lo)
          /\ (forall r, In r records -> le lo (low r))
          /\ (exists r, In r records /\ high r = hi)
          /\ (forall r, In r records -> le (high r) hi))
  /\ (linesToProcess (lines_of csv3)
      = ["t1,10,12,9,11,100"; "t2,11,13,10,12,110"; "t3,12,14,11,13,120"]
      /\ three_records
         = [row "t1" "10" "12" "9" "11" "100";
            row "t2" "11" "13" "10" "12" "110";
            row "t3" "12" "14" "11" "13" "120"]
      /\ Number_toString (Math_min (map low three_records)) = "9"
      /\ Number_toString (Math_max (map high three_records)) = "14"
      /\ summary three_records = summary3).
Proof.
  split; [|split; [|split]].
  - intros env w file text res data Hf Ht records Hne Hr Hj.
    assert (Hsel : linesToProcess (lines_of text) <> []).
    { intros E. apply Hne. subst records. now rewrite E. }
    assert (Hl : lines_of text <> []).
    { intros E. apply Hsel. now rewrite E. }
    destruct (uploadCSV_appends_summary env w file text res data Hf Ht Hl Hr Hj)
      as (rest & Hm).
    destruct (summary_of_converted (now env) _ Hsel)
      as (lo & hi & (lines & Hs) & Hrange).
    fold records in Hm, Hs, Hrange.
    exists lo, hi, lines, rest.
    split; [rewrite <- Hs; exact Hm|]. split; [symmetry; exact Hs|exact Hrange].
  - intros env w file res data Hf Ht records Hr Hj.
    assert (Hrec : records
                   = [row "t1" "10" "12" "9" "11" "100";
                      row "t2" "11" "13" "10" "12" "110";
                      row "t3" "12" "14" "11" "13" "120"]) by reflexivity.
    split; [exact Hrec|].
    assert (Hl : lines_of csv3 <> []) by discriminate.
    destruct (uploadCSV_appends_summary env w file csv3 res data Hf Ht Hl Hr Hj)
      as (rest & Hm).
    exists rest. rewrite Hm. fold records. rewrite Hrec. reflexivity.
  - exact summary_of_converted.
  - repeat split.
Qed.

Lemma C4_witness :
  let env := answering analysis_response in
  let w := at_start (state_with (Some (file_of csv3)) "") in
  ohlcData (now env) (linesToProcess (lines_of csv3)) <> []
  /\ messages (state (snd (uploadCSV env w)))
     = [user_message "hello"; system_message summary3;
        assistant_message (Str "Prices rise.")]
  /\ exists lo hi lines rest,
       messages (state (snd (uploadCSV env w)))
       = messages (state w)
           ++ system_message
                (lines ++ "- Price range: $" ++ Number_toString lo
                   ++ " - $" ++ Number_toString hi)
              :: rest
       /\ Number_toString lo = "9" /\ Number_toString hi = "14".
Proof.
  intros env w.
  assert (Hne : ohlcData (now env) (linesToProcess (lines_of csv3)) <> [])
    by discriminate.
  split; [exact Hne|]. split; [reflexivity|].
  destruct C4_summary_price_range as (Hrun & _).
  destruct (Hrun env w (file_of csv3) csv3 analysis_response
              (Obj [("analysis", Str "Prices rise.")])
              eq_refl eq_refl Hne eq_refl eq_refl)
    as (lo & hi & lines & rest & Hm & _ & Hlo & Hhi & _).
  exists lo, hi, lines, rest. split; [exact Hm|].
  rewrite Hlo, Hhi. split; reflexivity.
Defined.

(* ================================================================= *)
(** ** Further properties of the handlers and of what is rendered *)

Module MoreFacts.
Import JS Chat Outcome JSFacts ArrayFacts ChatFacts.
Local Open Scope string_scope.
Local Open Scope list_scope.

(** **** [split] *)

Lemma split_not_nil sep s : split sep s <> [].
Proof.
  destruct s as [|c r]; cbn; [discriminate|].
  destruct (Ascii.eqb c sep); [discriminate|].
  destruct (split sep r); discriminate.
Qed.

(** A piece of a split holds no separator: splitting it again gives it
    back. *)
Lemma split_piece sep s :
  Forall (fun piece => split sep piece = [piece]) (split sep s).
Proof.
  induction s as [|c r IH]; cbn.
  - constructor; [reflexivity|constructor].
  - destruct (Ascii.eqb c sep) eqn:E.
    + constructor; [reflexivity|exact IH].
    + destruct (split sep r) as [|w ws] eqn:Er;
        [contradiction (split_not_nil sep r Er)|].
      inversion IH as [|? ? Hw Hws]; subst.
      constructor; [|exact Hws]. cbn. rewrite E, Hw. reflexivity.
Qed.

(** The pieces of [a ++ sep ++ b] are the pieces of [a], then those of
    [b]. *)
Lemma split_app sep a b :
  split sep (a ++ String sep b)%string = split sep a ++ split sep b.
Proof.
  induction a as [|c a IH]; cbn.
  - now rewrite Ascii.eqb_refl.
  - destruct (Ascii.eqb c sep); [now rewrite IH|].
    rewrite IH. destruct (split sep a) as [|w ws] eqn:E;
      [contradiction (split_not_nil sep a E)|]. reflexivity.
Qed.

Lemma slice_0_3 {A : Type} (arr : list A) : slice arr 0 (Some 3%Z) = firstn 3 arr.
Proof.
  unfold slice, relative_index.
  change (0 <? 0)%Z with false. change (3 <? 0)%Z with false.
  change (Z.to_nat 0) with 0%nat. change (Z.to_nat 3) with 3%nat.
  cbv iota. rewrite Nat.min_0_l, Nat.sub_0_r. cbn [skipn].
  destruct (Nat.le_gt_cases 3 (List.length arr)) as [H|H].
  - now rewrite Nat.min_l.
  - rewrite Nat.min_r by lia. rewrite !firstn_all2; trivial; lia.
Qed.

Lemma in_firstn {A : Type} (x : A) n l : In x (firstn n l) -> In x l.
Proof.
  intros H. rewrite <- (firstn_skipn n l). apply in_or_app. now left.
Qed.

Lemma in_skipn {A : Type} (x : A) n l : In x (skipn n l) -> In x l.
Proof.
  intros H. rewrite <- (firstn_skipn n l). apply in_or_app. now right.
Qed.

Lemma last_skipn {A : Type} (d : A) k l :
  (k < List.length l)%nat -> last (skipn k l) d = last l d.
Proof.
  revert l. induction k as [|k IH]; intros l Hk; [reflexivity|].
  destruct l as [|a l]; [cbn in Hk; lia|].
  cbn [skipn]. rewrite IH by (cbn in Hk; lia).
  destruct l as [|b l]; [cbn in Hk; lia|reflexivity].
Qed.

Lemma nth_error_last {A : Type} (d : A) l :
  l <> [] -> nth_error l (List.length l - 1) = Some (last l d).
Proof.
  induction l as [|a l IH]; [contradiction|]. intros _.
  destruct l as [|b l]; [reflexivity|].
  replace (List.length (a :: b :: l) - 1)%nat
    with (S (List.length (b :: l) - 1)) by (cbn; lia).
  cbn [nth_error]. rewrite IH by discriminate. reflexivity.
Qed.

Lemma index_nat {A : Type} (l : list A) (n : nat) :
  index l (Z.of_nat n) = nth_error l n.
Proof.
  unfold index. destruct (Z.ltb_spec (Z.of_nat n) 0) as [H|H]; [lia|].
  now rewrite Nat2Z.id.
Qed.

(** **** The non-empty lines *)

Lemma lines_of_not_blank text :
  Forall (fun line => ~ whitespace_only line) (lines_of text).
Proof.
  apply Forall_forall. intros line Hin. unfold lines_of in Hin.
  apply filter_In in Hin. destruct Hin as [_ Ht].
  intros Hw. apply truthy_trim_false_iff in Hw. congruence.
Qed.

Lemma lines_of_no_LF text :
  Forall (fun line => split LF line = [line]) (lines_of text).
Proof.
  apply Forall_forall. intros line Hin. unfold lines_of in Hin.
  apply filter_In in Hin. destruct Hin as [Hin _].
  exact (proj1 (Forall_forall _ _) (split_piece LF text) line Hin).
Qed.

Lemma ws_not_LF :
  (forall c d, ws2 c d = true -> Ascii.eqb c LF = false /\ Ascii.eqb d LF = false)
  /\ (forall c d e, ws3 c d e = true ->
        Ascii.eqb c LF = false /\ Ascii.eqb d LF = false
        /\ Ascii.eqb e LF = false).
Proof.
  split.
  - intros c d H. unfold ws2 in H. bool_to_prop H.
    split; apply Ascii.eqb_neq; intros ->; cbn in H; lia.
  - intros c d e H. unfold ws3 in H. bool_to_prop H.
    repeat split; apply Ascii.eqb_neq; intros ->; cbn in H; lia.
Qed.

(** The pieces of a blank text are blank. *)
Lemma split_blank b : whitespace_only b -> Forall whitespace_only (split LF b).
Proof.
  induction 1 as [|c s Hc _ IH|c d s Hcd _ IH|c d e s Hcde _ IH].
  - repeat constructor.
  - cbn [split]. destruct (Ascii.eqb c LF).
    + constructor; [constructor|exact IH].
    + destruct (split LF s) as [|p ps] eqn:E;
        [contradiction (split_not_nil LF s E)|].
      inversion IH; subst. constructor; [now apply ws_one|trivial].
  - destruct (proj1 ws_not_LF c d Hcd) as [Ec Ed].
    cbn [split]. rewrite Ec, Ed.
    destruct (split LF s) as [|p ps] eqn:E;
      [contradiction (split_not_nil LF s E)|].
    inversion IH; subst. constructor; [now apply ws_two|trivial].
  - destruct (proj2 ws_not_LF c d e Hcde) as (Ec & Ed & Ee).
    cbn [split]. rewrite Ec, Ed, Ee.
    destruct (split LF s) as [|p ps] eqn:E;
      [contradiction (split_not_nil LF s E)|].
    inversion IH; subst. constructor; [now apply ws_three|trivial].
Qed.

Lemma lines_of_blank b : whitespace_only b -> lines_of b = [].
Proof.
  intros Hb. unfold lines_of. pose proof (split_blank b Hb) as Hall.
  induction Hall as [|p ps Hp _ IH]; [reflexivity|].
  cbn [filter]. apply truthy_trim_false_iff in Hp. now rewrite Hp.
Qed.

Lemma lines_of_app a b :
  lines_of (a ++ String LF b)%string = lines_of a ++ lines_of b.
Proof.
  unfold lines_of. now rewrite split_app, filter_app.
Qed.

(** **** The shape of what [uploadCSV] leaves *)

Lemma uploadCSV_shape env w f :
  csvFile (state w) = Some f ->
  exists added issued,
    snd (uploadCSV env w) = after_upload w added issued
    /\ (1 <= List.length added <= 2)%nat
    /\ (List.length issued <= 1)%nat.
Proof.
  intros Hf. rewrite (uploadCSV_run env w f Hf). cbn [snd].
  destruct (File_text f) as [text|];
    [|eexists _, _; split; [reflexivity|cbn; lia]].
  destruct (lines_of text);
    [eexists _, _; split; [reflexivity|cbn; lia]|].
  cbv zeta.
  destruct (fetch_outcome env _) as [res|];
    [|eexists _, _; split; [reflexivity|cbn; lia]].
  destruct (json res) as [answer|];
    [|eexists _, _; split; [reflexivity|cbn; lia]].
  eexists _, _; split; [reflexivity|].
  unfold analysis_messages.
  destruct answer as [| |b|x|str|els|members]; cbn; try lia.
  destruct (truthy (member "analysis" members)); cbn; lia.
Qed.

End MoreFacts.

Import JS Chat Outcome View Scenario JSFacts ArrayFacts NumberFacts ChatFacts MoreFacts.
Local Open Scope string_scope.
Local Open Scope list_scope.

(** *** [sendMessage] *)

(** X1.  When the chat request is answered with JSON, [sendMessage] appends
    the user message and one more message: for an object, the assistant
    message whose text is its [response] when that is truthy and its
    [analysis] otherwise ([undefined] when it has neither); for [null], the
    system error message, as reading [null.response] throws; for any other
    JSON value, an assistant message with an [undefined] text. *)
Theorem X1_reply_of_answer (env : Env) (w : World) (res : Response) (data : Value) :
  ~ whitespace_only (input (state w)) ->
  fetch_outcome env (chat_request (input (state w))) = Some res ->
  json res = Some data ->
  let typed := input (state w) in
  let appended reply :=
    messages (state (snd (sendMessage env w)))
    = messages (state w) ++ [user_message typed; reply] in
  (forall members,
     data = Obj members ->
     (truthy (member "response" members) = true ->
      appended (assistant_message (member "response" members)))
     /\ (truthy (member "response" members) = false ->
         appended (assistant_message (member "analysis" members)))
     /\ (member "response" members = Undefined ->
         member "analysis" members = Undefined ->
         appended (assistant_message Undefined)))
  /\ (data = Null -> appended (system_message chat_error))
  /\ (forall b, data = Bool b -> appended (assistant_message Undefined))
  /\ (forall x, data = Num x -> appended (assistant_message Undefined))
  /\ (forall s, data = Str s -> appended (assistant_message Undefined))
  /\ (forall l, data = Arr l -> appended (assistant_message Undefined)).
Proof.
  intros Hn Hr Hj typed appended. subst appended typed. cbv beta.
  rewrite (sendMessage_run env w Hn). cbv zeta. rewrite Hr, Hj.
  cbn [snd after_send state messages].
  split; [|repeat split; intros; subst data; reflexivity].
  intros members ->. cbn [reply_message]. repeat split.
  - intros ->. reflexivity.
  - intros ->. reflexivity.
  - intros H1 H2. rewrite H1, H2. reflexivity.
Qed.

Lemma X1_witness :
  let env := answering {| ok := true;
                          json := Some (Obj [("analysis", Str "a");
                                             ("response", Str "")]) |} in
  let w := at_start (state_with None " hi ") in
  ~ whitespace_only (input (state w))
  /\ messages (state (snd (sendMessage env w)))
     = [user_message "hello"; user_message " hi "; assistant_message (Str "a")].
Proof.
  intros env w.
  assert (Hn : ~ whitespace_only (input (state w))).
  { intros H. apply trim_empty_iff in H. discriminate H. }
  split; [exact Hn|].
  destruct (X1_reply_of_answer env w _ _ Hn eq_refl eq_refl) as (Hobj & _).
  destruct (Hobj _ eq_refl) as (_ & Hfalse & _).
  exact (Hfalse eq_refl).
Defined.

(** X9.  A run that acts ends with its own trigger off, on every outcome
    of its request: [sendMessage] past its guard leaves an input that is
    blank, so that its guard fails and the Send button is disabled;
    [uploadCSV] with a file selected leaves no file, so that its guard fails
    and the Analyze CSV button is disabled. *)
Theorem X9_run_turns_its_trigger_off (env : Env) (w : World) :
  (~ whitespace_only (input (state w)) ->
   whitespace_only (input (state (snd (sendMessage env w))))
   /\ send_disabled (state (snd (sendMessage env w))) = true)
  /\ (csvFile (state w) <> None ->
      csvFile (state (snd (uploadCSV env w))) = None
      /\ analyze_disabled (state (snd (uploadCSV env w))) = true).
Proof.
  split.
  - intros H. rewrite (sendMessage_run env w H).
    cbn [snd after_send state input]. split; [constructor|].
    unfold send_disabled. cbn [input loading]. reflexivity.
  - intros Hf. destruct (csvFile (state w)) as [f|] eqn:Ef; [|contradiction].
    destruct (uploadCSV_shape env w f Ef) as (added & issued & -> & _).
    split; reflexivity.
Qed.

Lemma X9_witness :
  let w := at_start (state_with (Some (file_of csv3)) "hi") in
  ~ whitespace_only (input (state w))
  /\ csvFile (state w) <> None
  /\ send_disabled (state w) = false
  /\ send_disabled (state (snd (sendMessage offline w))) = true
  /\ analyze_disabled (state w) = false
  /\ analyze_disabled (state (snd (uploadCSV offline w))) = true.
Proof.
  intros w.
  assert (Hn : ~ whitespace_only (input (state w))).
  { intros H. apply trim_empty_iff in H. discriminate H. }
  assert (Hf : csvFile (state w) <> None) by discriminate.
  destruct (X9_run_turns_its_trigger_off offline w) as [Hs Hu].
  split; [exact Hn|]. split; [exact Hf|]. split; [reflexivity|].
  split; [exact (proj2 (Hs Hn))|]. split; [reflexivity|exact (proj2 (Hu Hf))].
Defined.

(** *** Every handler *)

(** X3.  No handler lets an exception escape: whatever the file, the
    backend and the state, each of the four handlers returns. *)
Theorem X3_no_exception_escapes (env : Env) (file : option File) (w : World) :
  fst (checkBackendHealth env w) = Return tt
  /\ fst (handleCsvFileChange file w) = Return tt
  /\ fst (sendMessage env w) = Return tt
  /\ fst (uploadCSV env w) = Return tt.
Proof.
  split; [now rewrite checkBackendHealth_run|].
  split; [now rewrite handleCsvFileChange_run|]. split.
  - destruct (whitespace_only_dec (input (state w))) as [H|H].
    + now rewrite (sendMessage_blank env w H).
    + now rewrite (sendMessage_run env w H).
  - destruct (csvFile (state w)) as [f|] eqn:Hf.
    + now rewrite (uploadCSV_run env w f Hf).
    + now rewrite (uploadCSV_no_file env w Hf).
Qed.

(** X4.  The message list only grows at its end: every handler leaves the
    earlier messages in place and appends at most two; the health check and
    the file selection append none; [sendMessage] past its guard appends
    exactly two, and [uploadCSV] with a file selected at least one. *)
Theorem X4_messages_append_only (env : Env) (file : option File) (w : World) :
  messages (state (snd (checkBackendHealth env w))) = messages (state w)
  /\ messages (state (snd (handleCsvFileChange file w))) = messages (state w)
  /\ (exists added,
        messages (state (snd (sendMessage env w))) = messages (state w) ++ added
        /\ (List.length added <= 2)%nat
        /\ (~ whitespace_only (input (state w)) -> List.length added = 2%nat))
  /\ (exists added,
        messages (state (snd (uploadCSV env w))) = messages (state w) ++ added
        /\ (List.length added <= 2)%nat
        /\ (csvFile (state w) <> None -> (1 <= List.length added)%nat)).
Proof.
  split; [now rewrite checkBackendHealth_run|].
  split; [now rewrite handleCsvFileChange_run|]. split.
  - destruct (whitespace_only_dec (input (state w))) as [H|H].
    + rewrite (sendMessage_blank env w H). exists []. rewrite app_nil_r.
      split; [reflexivity|]. split; [cbn; lia|]. intros Hn. contradiction.
    + rewrite (sendMessage_run env w H). eexists. split; [reflexivity|].
      split; [cbn; lia|reflexivity].
  - destruct (csvFile (state w)) as [f|] eqn:Hf.
    + destruct (uploadCSV_shape env w f Hf) as (added & issued & -> & Ha & _).
      exists added. split; [reflexivity|]. split; [lia|]. intros _. lia.
    + rewrite (uploadCSV_no_file env w Hf). exists []. rewrite app_nil_r.
      split; [reflexivity|]. split; [cbn; lia|]. intros Hn. contradiction.
Qed.

Lemma X4_witness :
  let w := at_start (state_with (Some (file_of csv3)) "hi") in
  ~ whitespace_only (input (state w))
  /\ csvFile (state w) <> None
  /\ (exists added,
        messages (state (snd (sendMessage offline w))) = messages (state w) ++ added
        /\ List.length added = 2%nat)
  /\ (exists added,
        messages (state (snd (uploadCSV offline w))) = messages (state w) ++ added
        /\ (1 <= List.length added <= 2)%nat).
Proof.
  intros w.
  assert (Hn : ~ whitespace_only (input (state w))).
  { intros H. apply trim_empty_iff in H. discriminate H. }
  assert (Hf : csvFile (state w) <> None) by discriminate.
  split; [exact Hn|]. split; [exact Hf|].
  destruct (X4_messages_append_only offline None w)
    as (_ & _ & (a1 & H1 & _ & L1) & (a2 & H2 & L2 & L2')).
  split.
  - exists a1. split; [exact H1|exact (L1 Hn)].
  - exists a2. split; [exact H2|]. split; [exact (L2' Hf)|exact L2].
Defined.

(** *** [uploadCSV] *)

(** X5.  When the analyze request is answered with the JSON value [null],
    [uploadCSV] appends the summary and then the error message: the summary
    is appended before [data.analysis] is read, and reading it throws. *)
Theorem X5_null_answer (env : Env) (w : World) (file : File) (text : string)
    (res : Response) :
  csvFile (state w) = Some file ->
  File_text file = Some text ->
  lines_of text <> [] ->
  let data := ohlcData (now env) (linesToProcess (lines_of text)) in
  fetch_outcome env (analyze_request (input (state w)) data) = Some res ->
  json res = Some Null ->
  messages (state (snd (uploadCSV env w)))
  = messages (state w)
      ++ [system_message (summary data); system_message analyze_error].
Proof.
  intros Hf Ht Hl data Hr Hj.
  rewrite (uploadCSV_run env w file Hf), Ht.
  destruct (lines_of text) as [|line0 rest] eqn:El; [contradiction|].
  cbv zeta. fold data. rewrite Hr, Hj. reflexivity.
Qed.

Lemma X5_witness :
  let env := answering {| ok := true; json := Some Null |} in
  let w := at_start (state_with (Some (file_of csv3)) "") in
  lines_of csv3 <> []
  /\ messages (state (snd (uploadCSV env w)))
     = [user_message "hello"; system_message summary3;
        system_message analyze_error].
Proof.
  intros env w.
  assert (Hl : lines_of csv3 <> []) by discriminate.
  split; [exact Hl|].
  exact (X5_null_answer env w (file_of csv3) csv3 _ eq_refl eq_refl Hl
           eq_refl eq_refl).
Defined.

(** X6.  With a file selected whose text cannot be read, or whose text has
    no non-empty line, [uploadCSV] issues no request; it appends the error
    message, drops the file and the preview and ends not loading. *)
Theorem X6_nothing_to_send (env : Env) (w : World) (file : File) :
  csvFile (state w) = Some file ->
  (File_text file = None
   \/ exists text, File_text file = Some text /\ lines_of text = []) ->
  snd (uploadCSV env w) = after_upload w [system_message analyze_error] []
  /\ requests (snd (uploadCSV env w)) = requests w.
Proof.
  intros Hf H. rewrite (uploadCSV_run env w file Hf). cbn [snd].
  destruct H as [-> | (text & -> & ->)];
    (split; [reflexivity|cbn; apply app_nil_r]).
Qed.

Lemma X6_witness :
  let w := at_start (state_with (Some (file_of (" " ++ nl))) "") in
  lines_of (" " ++ nl) = []
  /\ state (snd (uploadCSV (answering analysis_response) w))
     = {| messages := [user_message "hello"; system_message analyze_error];
          input := ""; csvFile := None; loading := false;
          backendStatus := connected; csvPreview := None |}
  /\ requests (snd (uploadCSV (answering analysis_response) w)) = [].
Proof.
  intros w. split; [reflexivity|].
  destruct (X6_nothing_to_send (answering analysis_response) w
              (file_of (" " ++ nl)) eq_refl) as [Hw Hr].
  - right. exists (" " ++ nl)%string. split; reflexivity.
  - split; [rewrite Hw; reflexivity|exact Hr].
Defined.

(** *** The connection monitor *)

(** X7.  For every outcome of the health request, a response or a
    rejection, the status that the check sets is not [checking], and it is
    decided by that outcome alone: whatever state a check starts from, it
    leaves the same status.  The check of the mount, from the initial
    state, issues the one health request and changes nothing but the
    status. *)
Theorem X7_status_after_check (env : Env) (w w2 : World) :
  backendStatus (state (snd (checkBackendHealth env w))) <> checking
  /\ backendStatus (state (snd (checkBackendHealth env w)))
     = backendStatus (state (snd (checkBackendHealth env w2)))
  /\ (exists status,
        status <> checking
        /\ snd (mount env {| state := initial; requests := [] |})
           = {| state :=
                  {| messages := []; input := ""; csvFile := None;
                     loading := false; backendStatus := status;
                     csvPreview := None |};
                requests := [health_request] |}).
Proof.
  unfold mount. rewrite !checkBackendHealth_run. cbn [snd after_health state backendStatus].
  split; [|split; [reflexivity|]].
  - destruct (fetch_outcome env health_request) as [res|]; [|discriminate].
    destruct (ok res); [|discriminate]. destruct (json res); discriminate.
  - eexists. split; [|reflexivity].
    destruct (fetch_outcome env health_request) as [res|]; [|discriminate].
    destruct (ok res); [|discriminate]. destruct (json res); discriminate.
Qed.

(** *** The file selection and the preview *)

(** X8.  A preview that [handleCsvFileChange] sets has at least one header,
    a [totalLines] that is not negative, and as many rows as the smaller of
    5 and [totalLines]; no row is blank, and no header holds a comma. *)
Theorem X8_preview_shape (file : option File) (w : World) (p : CsvPreview) :
  csvPreview (state (snd (handleCsvFileChange file w))) = Some p ->
  headers p <> []
  /\ (0 <= totalLines p)%Z
  /\ List.length (preview p) = Nat.min 5 (Z.to_nat (totalLines p))
  /\ Forall (fun row => ~ whitespace_only row) (preview p)
  /\ Forall (fun h => split "," h = [h]) (headers p).
Proof.
  rewrite handleCsvFileChange_run. cbn [snd after_select state csvPreview].
  destruct file as [f|]; [|discriminate].
  destruct (File_text f) as [text|]; [|discriminate].
  pose proof (lines_of_not_blank text) as Hnb.
  destruct (lines_of text) as [|line0 rest]; [discriminate|].
  intros H.
  assert (Hp : p = {| headers := split "," line0;
                      preview := firstn 5 rest;
                      totalLines := (Z.of_nat (List.length (line0 :: rest)) - 1)%Z |})
    by congruence.
  subst p. clear H. cbn [headers preview totalLines].
  split; [apply split_not_nil|]. split; [cbn [List.length]; lia|].
  split; [|split].
  - rewrite length_firstn. cbn [List.length]. lia.
  - inversion Hnb as [|? ? _ Hrest]; subst.
    apply Forall_forall. intros row Hin.
    apply (proj1 (Forall_forall _ _) Hrest). eapply in_firstn; eauto.
  - apply split_piece.
Qed.

Lemma X8_witness :
  exists p,
    csvPreview
      (state (snd (handleCsvFileChange (Some (file_of (csv_rows 7)))
                     (at_start initial))))
    = Some p
    /\ List.length (headers p) = 6%nat
    /\ totalLines p = 7%Z
    /\ List.length (preview p) = 5%nat.
Proof.
  eexists. split; [reflexivity|].
  destruct (X8_preview_shape (Some (file_of (csv_rows 7))) (at_start initial)
              _ eq_refl) as (_ & _ & Hlen & _).
  split; [reflexivity|]. split; [reflexivity|]. exact Hlen.
Defined.

(** X19.  A run of [handleCsvFileChange] replaces the file and the preview
    wholesale: what it leaves does not depend on the file and the preview
    that the state held when it was called. *)
Theorem X19_selection_replaces_wholesale (file held : option File)
    (shown : option CsvPreview) (w : World) :
  snd (handleCsvFileChange file
         (snd (setCsvPreview shown (snd (setCsvFile held w)))))
  = snd (handleCsvFileChange file w).
Proof.
  rewrite !handleCsvFileChange_run. destruct w as [[]]. reflexivity.
Qed.

(** X13.  The preview box of a selected file with a header line shows the
    first three data lines, and the ellipsis exactly when the file has four
    data lines or more. *)
Theorem X13_preview_box (file : File) (text line0 : string) (rest : list string)
    (w : World) :
  File_text file = Some text ->
  lines_of text = line0 :: rest ->
  exists p,
    csvPreview (state (snd (handleCsvFileChange (Some file) w))) = Some p
    /\ shown_rows p = firstn 3 rest
    /\ (ellipsis p = true <-> (4 <= List.length rest)%nat).
Proof.
  intros Ht Hl. rewrite handleCsvFileChange_run, Ht, Hl.
  eexists. split; [reflexivity|].
  unfold shown_rows, ellipsis. cbn [preview].
  rewrite slice_0_3, firstn_firstn. split; [reflexivity|].
  rewrite Nat.ltb_lt, length_firstn. lia.
Qed.

Lemma X13_witness :
  exists p,
    csvPreview
      (state (snd (handleCsvFileChange (Some (file_of csv3)) (at_start initial))))
    = Some p
    /\ shown_rows p
       = ["t1,10,12,9,11,100"; "t2,11,13,10,12,110"; "t3,12,14,11,13,120"]
    /\ ellipsis p = false.
Proof.
  destruct (X13_preview_box (file_of csv3) csv3 header (data_of csv3)
              (at_start initial) eq_refl eq_refl) as (p & Hp & Hrows & Hell).
  exists p. split; [exact Hp|]. split; [exact Hrows|].
  destruct (ellipsis p); [|reflexivity].
  destruct Hell as [Hell _]. specialize (Hell eq_refl). cbn in Hell. lia.
Defined.

(** *** The lines of a file *)

(** X17.  The non-empty lines of a text: none is blank and none holds a
    line feed; the lines of two texts joined by a line feed are the lines of
    the first, then those of the second; so a line feed at the end, or blank
    lines after it, add no line. *)
Theorem X17_lines_of_text (a b : string) :
  Forall (fun line => ~ whitespace_only line /\ split LF line = [line])
         (lines_of a)
  /\ lines_of (a ++ nl ++ b)%string = lines_of a ++ lines_of b
  /\ lines_of (a ++ nl)%string = lines_of a
  /\ (whitespace_only b -> lines_of (a ++ nl ++ b)%string = lines_of a).
Proof.
  split; [|split; [|split]].
  - apply Forall_forall. intros line Hin. split.
    + exact (proj1 (Forall_forall _ _) (lines_of_not_blank a) line Hin).
    + exact (proj1 (Forall_forall _ _) (lines_of_no_LF a) line Hin).
  - apply lines_of_app.
  - change (a ++ nl)%string with (a ++ String LF "")%string.
    rewrite lines_of_app. apply app_nil_r.
  - intros Hb. change (a ++ nl ++ b)%string with (a ++ String LF b)%string.
    rewrite lines_of_app.
    assert (Hl : lines_of b = []) by now apply lines_of_blank.
    rewrite Hl. apply app_nil_r.
Qed.

Lemma X17_witness :
  whitespace_only (" " ++ nl)
  /\ lines_of (csv3 ++ nl ++ " " ++ nl) = lines_of csv3.
Proof.
  assert (Hb : whitespace_only (" " ++ nl)).
  { cbn. apply ws_one; [reflexivity|]. apply ws_one; [reflexivity|apply ws_empty]. }
  split; [exact Hb|].
  destruct (X17_lines_of_text csv3 (" " ++ nl)) as (_ & _ & _ & H).
  exact (H Hb).
Defined.

(** *** The converter *)

(** X14.  Columns after the sixth are ignored: a line with six columns or
    more converts to the same record whatever is added after a further
    comma. *)
Theorem X14_columns_after_the_sixth (clock line extra : string) :
  (6 <= List.length (split "," line))%nat ->
  record_of_line clock (line ++ "," ++ extra) = record_of_line clock line.
Proof.
  intros H. unfold record_of_line.
  change (line ++ "," ++ extra)%string with (line ++ String "," extra)%string.
  rewrite split_app.
  change 0%Z with (Z.of_nat 0). change 1%Z with (Z.of_nat 1).
  change 2%Z with (Z.of_nat 2). change 3%Z with (Z.of_nat 3).
  change 4%Z with (Z.of_nat 4). change 5%Z with (Z.of_nat 5).
  rewrite !index_nat. rewrite !nth_error_app1 by lia. reflexivity.
Qed.

Lemma X14_witness :
  (6 <= List.length (split "," "t1,10,12,9,11,100"))%nat
  /\ record_of_line (clock 0) "t1,10,12,9,11,100,note,7"
     = row "t1" "10" "12" "9" "11" "100".
Proof.
  assert (H : (6 <= List.length (split "," "t1,10,12,9,11,100"))%nat)
    by (vm_compute; lia).
  split; [exact H|].
  exact (eq_trans
           (X14_columns_after_the_sixth (clock 0) "t1,10,12,9,11,100" "note,7" H)
           eq_refl).
Defined.

(** X20.  The selection ends where the file ends: when the file has data
    lines, the last selected line is the last non-empty line of the file,
    and the last record is that line converted. *)
Theorem X20_most_recent_last (clk : nat -> string) (text line0 : string)
    (data : list string) (d : string) :
  lines_of text = line0 :: data ->
  data <> [] ->
  let selected := linesToProcess (lines_of text) in
  last selected d = last (lines_of text) d
  /\ nth_error (ohlcData clk selected) (List.length selected - 1)
     = Some (record_of_line (clk (List.length selected - 1)%nat)
               (last (lines_of text) d)).
Proof.
  intros Hl Hd selected.
  assert (Hsel : selected = skipn (List.length data - 50) data).
  { subst selected. rewrite linesToProcess_skipn, dataLines_tl, Hl. reflexivity. }
  assert (Hlast : last selected d = last (lines_of text) d).
  { rewrite Hsel, Hl. rewrite last_skipn.
    - destruct data; [contradiction|reflexivity].
    - destruct data; [contradiction|cbn [List.length]; lia]. }
  split; [exact Hlast|].
  unfold ohlcData. rewrite nth_error_map_from.
  assert (Hne : selected <> []).
  { rewrite Hsel. intros E. apply (f_equal (@List.length string)) in E.
    rewrite length_skipn in E. destruct data; [contradiction|].
    cbn [List.length] in E. lia. }
  rewrite (nth_error_last d selected Hne), Hlast. reflexivity.
Qed.

Lemma X20_witness :
  data_of (csv_rows 60) <> []
  /\ last (linesToProcess (lines_of (csv_rows 60))) "" = "r59,1,3,0.5,2,7".
Proof.
  assert (Hd : data_of (csv_rows 60) <> []) by discriminate.
  split; [exact Hd|].
  destruct (X20_most_recent_last clock (csv_rows 60) header
              (data_of (csv_rows 60)) "" eq_refl Hd) as [H _].
  rewrite H. reflexivity.
Defined.

(** X15.  The summary of one record or more reports how many records there
    are, the timestamp of the first record and the timestamp of the last
    one, before the price range. *)
Theorem X15_summary_count_and_dates (records : list OhlcRecord)
    (first : OhlcRecord) (others : list OhlcRecord) :
  records = first :: others ->
  summary records
  = ("📊 CSV uploaded and analyzed" ++ nl ++ nl
       ++ "📈 Data Summary:" ++ nl
       ++ "- Total lines processed: "
       ++ decimal_of_N (N.of_nat (List.length records)) ++ nl
       ++ "- Date range: " ++ t first ++ " to " ++ t (last records first) ++ nl
       ++ "- Price range: $" ++ Number_toString (Math_min (map low records))
       ++ " - $" ++ Number_toString (Math_max (map high records)))%string.
Proof.
  intros Hr. unfold summary.
  assert (H0 : index records 0 = Some first) by (subst records; reflexivity).
  assert (Hn : index records (Z.of_nat (List.length records) - 1)
               = Some (last records first)).
  { replace (Z.of_nat (List.length records) - 1)%Z
      with (Z.of_nat (List.length records - 1))
      by (subst records; cbn [List.length]; lia).
    rewrite index_nat. apply nth_error_last. subst records. discriminate. }
  rewrite H0, Hn. reflexivity.
Qed.

Lemma X15_witness :
  three_records
  = row "t1" "10" "12" "9" "11" "100"
      :: [row "t2" "11" "13" "10" "12" "110"; row "t3" "12" "14" "11" "13" "120"]
  /\ summary three_records = summary3.
Proof.
  split; [reflexivity|].
  exact (eq_trans
           (X15_summary_count_and_dates three_records
              (row "t1" "10" "12" "9" "11" "100")
              [row "t2" "11" "13" "10" "12" "110";
               row "t3" "12" "14" "11" "13" "120"] eq_refl)
           eq_refl).
Defined.

(** *** The controls and the guards *)

(** X18.  What the two actions leave alone and what they reset.
    [sendMessage] never changes the file, the preview or the status;
    [uploadCSV] never changes the status; and with a file selected,
    [uploadCSV] ends, on every outcome, with no file, no preview and the
    loading flag false, while [sendMessage] past its guard ends with the
    loading flag false. *)
Theorem X18_what_the_actions_reset (env : Env) (w : World) :
  (csvFile (state (snd (sendMessage env w))) = csvFile (state w)
   /\ csvPreview (state (snd (sendMessage env w))) = csvPreview (state w)
   /\ backendStatus (state (snd (sendMessage env w))) = backendStatus (state w))
  /\ backendStatus (state (snd (uploadCSV env w))) = backendStatus (state w)
  /\ (csvFile (state w) <> None ->
      csvFile (state (snd (uploadCSV env w))) = None
      /\ csvPreview (state (snd (uploadCSV env w))) = None
      /\ loading (state (snd (uploadCSV env w))) = false)
  /\ (~ whitespace_only (input (state w)) ->
      loading (state (snd (sendMessage env w))) = false).
Proof.
  split; [|split; [|split]].
  - destruct (whitespace_only_dec (input (state w))) as [H|H].
    + rewrite (sendMessage_blank env w H). repeat split.
    + rewrite (sendMessage_run env w H). repeat split.
  - destruct (csvFile (state w)) as [f|] eqn:Hf.
    + destruct (uploadCSV_shape env w f Hf) as (added & issued & -> & _).
      reflexivity.
    + now rewrite (uploadCSV_no_file env w Hf).
  - intros Hf. destruct (csvFile (state w)) as [f|] eqn:Ef; [|contradiction].
    destruct (uploadCSV_shape env w f Ef) as (added & issued & -> & _).
    repeat split.
  - intros H. rewrite (sendMessage_run env w H). reflexivity.
Qed.

Lemma X18_witness :
  let w := {| state := {| messages := []; input := "hi";
                          csvFile := Some (file_of csv3); loading := true;
                          backendStatus := error;
                          csvPreview := None |};
              requests := [] |} in
  csvFile (state w) <> None
  /\ ~ whitespace_only (input (state w))
  /\ csvFile (state (snd (uploadCSV offline w))) = None
  /\ loading (state (snd (uploadCSV offline w))) = false
  /\ loading (state (snd (sendMessage offline w))) = false
  /\ backendStatus (state (snd (uploadCSV offline w))) = error.
Proof.
  intros w.
  assert (Hf : csvFile (state w) <> None) by discriminate.
  assert (Hn : ~ whitespace_only (input (state w))).
  { intros H. apply trim_empty_iff in H. discriminate H. }
  destruct (X18_what_the_actions_reset offline w) as (_ & Hs & Hup & Hsend).
  destruct (Hup Hf) as (H1 & _ & H3).
  split; [exact Hf|]. split; [exact Hn|]. split; [exact H1|].
  split; [exact H3|]. split; [exact (Hsend Hn)|exact Hs].
Defined.

(** X10.  Neither action checks the loading flag: started with the flag set
    or cleared, [sendMessage] past its guard, and [uploadCSV] with a file
    selected, issue the same request and leave the same state. *)
Theorem X10_loading_is_not_checked (env : Env) (w : World) (flag : bool) :
  (~ whitespace_only (input (state w)) ->
   snd (sendMessage env (snd (setLoading flag w))) = snd (sendMessage env w))
  /\ (csvFile (state w) <> None ->
      snd (uploadCSV env (snd (setLoading flag w))) = snd (uploadCSV env w)).
Proof.
  split.
  - intros H.
    assert (H' : ~ whitespace_only (input (state (snd (setLoading flag w)))))
      by (destruct w as [[]]; exact H).
    rewrite (sendMessage_run env _ H'), (sendMessage_run env w H).
    destruct w as [[]]. reflexivity.
  - intros Hf. destruct (csvFile (state w)) as [f|] eqn:Ef; [|contradiction].
    assert (Ef' : csvFile (state (snd (setLoading flag w))) = Some f)
      by (destruct w as [[]]; exact Ef).
    rewrite (uploadCSV_run env _ f Ef'), (uploadCSV_run env w f Ef).
    destruct w as [[]]. reflexivity.
Qed.

Lemma X10_witness :
  let w := at_start (state_with (Some (file_of csv3)) "hi") in
  ~ whitespace_only (input (state w))
  /\ csvFile (state w) <> None
  /\ loading (state (snd (setLoading true w))) = true
  /\ requests (snd (sendMessage offline (snd (setLoading true w))))
     = [chat_request "hi"]
  /\ List.length (requests (snd (uploadCSV offline (snd (setLoading true w)))))
     = 1%nat.
Proof.
  intros w.
  assert (Hn : ~ whitespace_only (input (state w))).
  { intros H. apply trim_empty_iff in H. discriminate H. }
  assert (Hf : csvFile (state w) <> None) by discriminate.
  destruct (X10_loading_is_not_checked offline w true) as [Hs Hu].
  split; [exact Hn|]. split; [exact Hf|]. split; [reflexivity|].
  rewrite (Hs Hn), (Hu Hf). split; reflexivity.
Defined.

(** X11.  The buttons and the guards agree.  The Send button is enabled
    exactly when the component is not loading and the input is not blank,
    and then [sendMessage] issues the chat request; the Analyze button is
    enabled exactly when the component is not loading and a file is
    selected, and then [uploadCSV] appends a message and drops the file. *)
Theorem X11_enabled_buttons_act (env : Env) (w : World) :
  (send_disabled (state w) = false
   <-> loading (state w) = false /\ ~ whitespace_only (input (state w)))
  /\ (analyze_disabled (state w) = false
      <-> loading (state w) = false /\ csvFile (state w) <> None)
  /\ (send_disabled (state w) = false ->
      requests (snd (sendMessage env w))
      = requests w ++ [chat_request (input (state w))])
  /\ (analyze_disabled (state w) = false ->
      csvFile (state (snd (uploadCSV env w))) = None
      /\ exists m added,
           messages (state (snd (uploadCSV env w)))
           = messages (state w) ++ m :: added).
Proof.
  assert (Hs : send_disabled (state w) = false
               <-> loading (state w) = false
                   /\ ~ whitespace_only (input (state w))).
  { unfold send_disabled. rewrite orb_false_iff, negb_false_iff. split.
    - intros [Hl Ht]. split; [exact Hl|]. intros Hw.
      apply truthy_trim_false_iff in Hw. congruence.
    - intros [Hl Hn]. split; [exact Hl|].
      destruct (truthy_string (trim (input (state w)))) eqn:E; trivial.
      apply truthy_trim_false_iff in E. contradiction. }
  assert (Ha : analyze_disabled (state w) = false
               <-> loading (state w) = false /\ csvFile (state w) <> None).
  { unfold analyze_disabled. rewrite orb_false_iff.
    destruct (csvFile (state w)); split; intros [H1 H2]; split; trivial;
      try discriminate; contradiction. }
  split; [exact Hs|]. split; [exact Ha|]. split.
  - intros H. apply Hs in H. destruct H as [_ Hn].
    now rewrite (sendMessage_run env w Hn).
  - intros H. apply Ha in H. destruct H as [_ Hf].
    destruct (csvFile (state w)) as [f|] eqn:Ef; [|contradiction].
    destruct (uploadCSV_shape env w f Ef) as (added & issued & -> & Hlen & _).
    split; [reflexivity|].
    destruct added as [|m added]; [cbn in Hlen; lia|].
    exists m, added. reflexivity.
Qed.

Lemma X11_witness :
  let w := at_start (state_with (Some (file_of csv3)) "hi") in
  send_disabled (state w) = false
  /\ analyze_disabled (state w) = false
  /\ requests (snd (sendMessage offline w)) = [chat_request "hi"]
  /\ csvFile (state (snd (uploadCSV offline w))) = None.
Proof.
  intros w.
  destruct (X11_enabled_buttons_act offline w) as (_ & _ & Hsend & Hup).
  split; [reflexivity|]. split; [reflexivity|].
  split; [exact (Hsend eq_refl)|exact (proj1 (Hup eq_refl))].
Defined.

(** X12.  The Enter key calls [sendMessage] without looking at the loading
    flag: while the component is loading and the Send button is disabled,
    Enter on an input that is not blank still issues a chat request and
    appends the user message.  Any other key does nothing. *)
Theorem X12_enter_key (env : Env) (w : World) :
  (forall key, key <> "Enter" -> onKeyDown env key w = (Return tt, w))
  /\ onKeyDown env "Enter" w = sendMessage env w
  /\ (loading (state w) = true ->
      ~ whitespace_only (input (state w)) ->
      send_disabled (state w) = true
      /\ requests (snd (onKeyDown env "Enter" w))
         = requests w ++ [chat_request (input (state w))]
      /\ exists reply,
           messages (state (snd (onKeyDown env "Enter" w)))
           = messages (state w) ++ [user_message (input (state w)); reply]).
Proof.
  split; [|split].
  - intros key Hk. unfold onKeyDown.
    destruct (String.eqb key "Enter") eqn:E; [|reflexivity].
    apply String.eqb_eq in E. contradiction.
  - reflexivity.
  - intros Hl Hn. split; [unfold send_disabled; now rewrite Hl|].
    change (onKeyDown env "Enter" w) with (sendMessage env w).
    rewrite (sendMessage_run env w Hn). split; [reflexivity|].
    eexists. reflexivity.
Qed.

Lemma X12_witness :
  let w := snd (setLoading true (at_start (state_with None "hi"))) in
  loading (state w) = true
  /\ ~ whitespace_only (input (state w))
  /\ send_disabled (state w) = true
  /\ requests (snd (onKeyDown offline "Enter" w)) = [chat_request "hi"]
  /\ onKeyDown offline "a" w = (Return tt, w).
Proof.
  intros w.
  assert (Hn : ~ whitespace_only (input (state w))).
  { intros H. apply trim_empty_iff in H. discriminate H. }
  destruct (X12_enter_key offline w) as (Hkey & _ & Henter).
  destruct (Henter eq_refl Hn) as (Hd & Hr & _).
  split; [reflexivity|]. split; [exact Hn|]. split; [exact Hd|].
  split; [exact Hr|]. apply Hkey. discriminate.
Defined.

(* ================================================================= *)
(** ** What [parseFloat] skips *)

Module ParseFacts.
Import JS Chat Scenario JSFacts MoreFacts.
Local Open Scope string_scope.

(** **** White space in front *)

Lemma trimStart_cons a s1 :
  trimStart (String a s1)
  = if ws1 a then trimStart s1
    else match s1 with
         | EmptyString => String a s1
         | String b s2 =>
             if ws2 a b then trimStart s2
             else match s2 with
                  | EmptyString => String a s1
                  | String c s3 =>
                      if ws3 a b c then trimStart s3 else String a s1
                  end
         end.
Proof. reflexivity. Qed.

Lemma trimStart_app_blank b s :
  whitespace_only b -> trimStart (b ++ s) = trimStart s.
Proof.
  induction 1 as [|c r Hc _ IH|c d r Hcd _ IH|c d e r Hcde _ IH].
  - reflexivity.
  - cbn [String.append]. now rewrite trimStart_cons, Hc.
  - cbn [String.append]. now rewrite trimStart_cons, (ws2_not_ws1 _ _ Hcd), Hcd.
  - cbn [String.append].
    now rewrite trimStart_cons, (ws3_not_ws1 _ _ _ Hcde),
      (ws3_not_ws2 _ _ _ Hcde), Hcde.
Qed.

(** **** A carriage return at the end *)

Lemma span_digits_app_CR s :
  span_digits (s ++ CR)
  = (fst (span_digits s), snd (span_digits s) ++ CR).
Proof.
  induction s as [|c r IH]; [reflexivity|].
  cbn [String.append span_digits]. destruct (is_digit c); [|reflexivity].
  rewrite IH. destruct (span_digits r). reflexivity.
Qed.

Lemma startsWith_Infinity_app_CR s :
  startsWith "Infinity" (s ++ CR) = startsWith "Infinity" s.
Proof.
  unfold startsWith.
  do 8 (destruct s as [|? s]; [reflexivity|];
        cbn [String.append prefix]; destruct (ascii_dec _ _); [|reflexivity]).
  destruct s; reflexivity.
Qed.

Lemma ExponentPart_app_CR s : ExponentPart (s ++ CR) = ExponentPart s.
Proof.
  destruct s as [|c r]; [reflexivity|].
  cbn [String.append]. unfold ExponentPart.
  destruct (Ascii.eqb c "e" || Ascii.eqb c "E")%bool; [|reflexivity].
  destruct r as [|d r]; [reflexivity|]. cbn [String.append].
  assert (Hplain : span_digits (String d (r ++ CR))
                   = (fst (span_digits (String d r)),
                      snd (span_digits (String d r)) ++ CR))
    by apply (span_digits_app_CR (String d r)).
  pose proof (span_digits_app_CR r) as Hrest.
  destruct d as [[] [] [] [] [] [] [] []];
    cbv beta iota;
    first [ rewrite Hrest; destruct (span_digits r); reflexivity
          | rewrite Hplain; destruct (span_digits (String _ r)); reflexivity ].
Qed.

Lemma StrUnsignedDecimalLiteral_app_CR s :
  StrUnsignedDecimalLiteral (s ++ CR) = StrUnsignedDecimalLiteral s.
Proof.
  unfold StrUnsignedDecimalLiteral.
  rewrite startsWith_Infinity_app_CR, span_digits_app_CR.
  destruct (startsWith "Infinity" s); [reflexivity|].
  destruct (span_digits s) as [int r1]. cbn [fst snd].
  destruct r1 as [|c r2]; [reflexivity|]. cbn [String.append].
  pose proof (ExponentPart_app_CR (String c r2)) as He. cbn [String.append] in He.
  pose proof (span_digits_app_CR r2) as Hs.
  destruct c as [[] [] [] [] [] [] [] []]; cbv beta iota;
    first [ now rewrite He
          | rewrite Hs; destruct (span_digits r2) as [frac r3]; cbn [fst snd];
            now rewrite ExponentPart_app_CR ].
Qed.

Lemma ws_CR a b :
  ws1 (ascii_of_N 13) = true /\ ws2 a (ascii_of_N 13) = false
  /\ ws3 a b (ascii_of_N 13) = false.
Proof.
  split; [reflexivity|]. split.
  - apply not_true_is_false. intros H. unfold ws2 in H. bool_to_prop H.
    cbn in H. lia.
  - apply not_true_is_false. intros H. unfold ws3 in H. bool_to_prop H.
    cbn in H. lia.
Qed.

Lemma trimStart_app_CR s :
  trimStart (s ++ CR)
  = if String.eqb (trimStart s) "" then "" else trimStart s ++ CR.
Proof.
  remember (String.length s) as n eqn:Hn. revert s Hn.
  induction n as [n IH] using lt_wf_ind. intros s Hn.
  destruct s as [|a s1]; [reflexivity|].
  cbn [String.append]. rewrite !trimStart_cons.
  destruct (ws1 a) eqn:E1.
  { apply (IH (String.length s1)); [cbn in Hn; lia|reflexivity]. }
  destruct s1 as [|b s2].
  { cbn [String.append]. unfold CR. now rewrite (proj1 (proj2 (ws_CR a a))). }
  cbn [String.append]. destruct (ws2 a b) eqn:E2.
  { apply (IH (String.length s2)); [cbn in Hn; lia|reflexivity]. }
  destruct s2 as [|c s3].
  { cbn [String.append]. unfold CR. now rewrite (proj2 (proj2 (ws_CR a b))). }
  cbn [String.append]. destruct (ws3 a b c) eqn:E3.
  { apply (IH (String.length s3)); [cbn in Hn; lia|reflexivity]. }
  reflexivity.
Qed.

(** A carriage return after the text does not change what [parseFloat]
    reads. *)
Lemma parseFloat_app_CR s : parseFloat (Some (s ++ CR)) = parseFloat (Some s).
Proof.
  unfold parseFloat, ToString_arg. rewrite trimStart_app_CR.
  destruct (trimStart s) as [|c r] eqn:E; [reflexivity|].
  cbn [String.eqb String.append].
  pose proof (StrUnsignedDecimalLiteral_app_CR r) as Hr.
  pose proof (StrUnsignedDecimalLiteral_app_CR (String c r)) as Hcr.
  cbn [String.append] in Hcr.
  destruct c as [[] [] [] [] [] [] [] []]; cbv beta iota;
    first [now rewrite Hr | now rewrite Hcr].
Qed.

(** White space before the text does not change it either. *)
Lemma parseFloat_app_blank b s :
  whitespace_only b -> parseFloat (Some (b ++ s)) = parseFloat (Some s).
Proof.
  intros Hb. unfold parseFloat, ToString_arg.
  now rewrite (trimStart_app_blank b s Hb).
Qed.

(** **** How an added character moves through [split] *)

(** A character that is not the separator, added at the end, goes to the
    last piece. *)
Lemma split_app_char sep c s :
  Ascii.eqb c sep = false ->
  exists pieces final,
    split sep s = (pieces ++ [final])%list
    /\ split sep (s ++ String c "")
       = (pieces ++ [(final ++ String c "")%string])%list.
Proof.
  intros Hc. induction s as [|a s IH].
  - exists [], "". cbn. rewrite Hc. split; reflexivity.
  - destruct IH as (pieces & final & H1 & H2).
    cbn [String.append split]. rewrite H1, H2.
    destruct (Ascii.eqb a sep).
    + exists ("" :: pieces), final. split; reflexivity.
    + destruct pieces as [|p ps].
      * exists [], (String a final). split; reflexivity.
      * exists (String a p :: ps), final. split; reflexivity.
Qed.

(** White space in front goes to the first piece. *)
Lemma split_comma_blank b s :
  whitespace_only b ->
  exists p ps,
    split "," s = p :: ps /\ split "," (b ++ s) = (b ++ p) :: ps.
Proof.
  assert (Hstep : forall c s' p ps,
             Ascii.eqb c "," = false ->
             split "," s' = p :: ps ->
             split "," (String c s') = String c p :: ps).
  { intros c s' p ps Hc Hs. cbn [split]. now rewrite Hc, Hs. }
  assert (H1 : forall c, ws1 c = true -> Ascii.eqb c "," = false).
  { intros c H. apply Ascii.eqb_neq. intros ->. discriminate H. }
  assert (H2 : forall c d, ws2 c d = true ->
                 Ascii.eqb c "," = false /\ Ascii.eqb d "," = false).
  { intros c d H. unfold ws2 in H. bool_to_prop H.
    split; apply Ascii.eqb_neq; intros ->; cbn in H; lia. }
  assert (H3 : forall c d e, ws3 c d e = true ->
                 Ascii.eqb c "," = false /\ Ascii.eqb d "," = false
                 /\ Ascii.eqb e "," = false).
  { intros c d e H. unfold ws3 in H. bool_to_prop H.
    repeat split; apply Ascii.eqb_neq; intros ->; cbn in H; lia. }
  induction 1 as [|c r Hc _ IH|c d r Hcd _ IH|c d e r Hcde _ IH].
  - destruct (split "," s) as [|p ps] eqn:E;
      [contradiction (split_not_nil "," s E)|].
    exists p, ps. split; [reflexivity|exact E].
  - destruct IH as (p & ps & Hs & Hb). exists p, ps. split; [exact Hs|].
    cbn [String.append]. apply Hstep; [now apply H1|exact Hb].
  - destruct IH as (p & ps & Hs & Hb). exists p, ps. split; [exact Hs|].
    destruct (H2 c d Hcd) as [Ec Ed].
    cbn [String.append]. apply Hstep; [exact Ec|]. apply Hstep; [exact Ed|exact Hb].
  - destruct IH as (p & ps & Hs & Hb). exists p, ps. split; [exact Hs|].
    destruct (H3 c d e Hcde) as (Ec & Ed & Ee).
    cbn [String.append]. apply Hstep; [exact Ec|]. apply Hstep; [exact Ed|].
    apply Hstep; [exact Ee|exact Hb].
Qed.

(** A record is decided by column 0 and by what [parseFloat] reads in the
    columns 1 to 5. *)
Lemma record_of_line_ext clock line line' :
  nth_error (split "," line') 0 = nth_error (split "," line) 0 ->
  (forall k, (1 <= k <= 5)%nat ->
             parseFloat (nth_error (split "," line') k)
             = parseFloat (nth_error (split "," line) k)) ->
  record_of_line clock line' = record_of_line clock line.
Proof.
  intros H0 Hk. unfold record_of_line.
  change 0%Z with (Z.of_nat 0). change 1%Z with (Z.of_nat 1).
  change 2%Z with (Z.of_nat 2). change 3%Z with (Z.of_nat 3).
  change 4%Z with (Z.of_nat 4). change 5%Z with (Z.of_nat 5).
  rewrite !index_nat, H0.
  rewrite (Hk 1%nat), (Hk 2%nat), (Hk 3%nat), (Hk 4%nat), (Hk 5%nat) by lia.
  reflexivity.
Qed.

End ParseFacts.

Import JS Chat Outcome View Scenario JSFacts ArrayFacts ChatFacts MoreFacts ParseFacts.
Local Open Scope string_scope.
Local Open Scope list_scope.

(** X21.  A carriage return at the end of a line, as the lines of a file
    with Windows line ends have once the text is split at the line feeds,
    does not change the record, when the line has two columns or more: the
    carriage return ends the last column, and [parseFloat] does not read
    it. *)
Theorem X21_carriage_return_at_line_end (clock line : string) :
  (2 <= List.length (split "," line))%nat ->
  record_of_line clock (line ++ CR) = record_of_line clock line.
Proof.
  intros Hlen.
  destruct (split_app_char "," (ascii_of_N 13) line eq_refl)
    as (pieces & final & H1 & H2).
  fold CR in H2.
  assert (Hp : (1 <= List.length pieces)%nat).
  { rewrite H1, length_app in Hlen. cbn in Hlen. lia. }
  apply record_of_line_ext; rewrite H1, H2.
  - rewrite !nth_error_app1 by lia. reflexivity.
  - intros k _.
    destruct (Nat.lt_trichotomy k (List.length pieces)) as [Hk|[Hk|Hk]].
    + rewrite !nth_error_app1 by lia. reflexivity.
    + rewrite !nth_error_app2 by lia. rewrite Hk, Nat.sub_diag.
      cbn [nth_error]. apply parseFloat_app_CR.
    + rewrite !nth_error_app2 by lia.
      destruct (k - List.length pieces)%nat as [|j] eqn:E; [lia|].
      destruct j; reflexivity.
Qed.

Lemma X21_witness :
  (2 <= List.length (split "," "t1,10,12,9,11,100"))%nat
  /\ record_of_line (clock 0) ("t1,10,12,9,11,100" ++ CR)
     = row "t1" "10" "12" "9" "11" "100".
Proof.
  assert (H : (2 <= List.length (split "," "t1,10,12,9,11,100"))%nat)
    by (vm_compute; lia).
  split; [exact H|].
  exact (eq_trans
           (X21_carriage_return_at_line_end (clock 0) "t1,10,12,9,11,100" H)
           eq_refl).
Defined.

(** X22.  White space after a comma does not change the record: the column
    that follows the comma is a numeric column or an ignored one, and
    [parseFloat] skips the white space in front. *)
Theorem X22_white_space_after_a_comma (clock before blank after : string) :
  whitespace_only blank ->
  record_of_line clock (before ++ "," ++ blank ++ after)
  = record_of_line clock (before ++ "," ++ after).
Proof.
  intros Hb.
  change (before ++ "," ++ blank ++ after)%string
    with (before ++ String "," (blank ++ after))%string.
  change (before ++ "," ++ after)%string
    with (before ++ String "," after)%string.
  destruct (split_comma_blank blank after Hb) as (p & ps & Hs & Hbs).
  destruct (split "," before) as [|q qs] eqn:Eq;
    [contradiction (split_not_nil "," before Eq)|].
  apply record_of_line_ext; rewrite !split_app, Eq, Hs, Hbs.
  - reflexivity.
  - intros k _.
    destruct (Nat.lt_trichotomy k (List.length (q :: qs))) as [Hk|[Hk|Hk]].
    + rewrite !nth_error_app1 by lia. reflexivity.
    + rewrite !nth_error_app2 by lia. rewrite Hk, Nat.sub_diag.
      cbn [nth_error]. now apply parseFloat_app_blank.
    + rewrite !nth_error_app2 by lia.
      destruct (k - List.length (q :: qs))%nat as [|j] eqn:E; [lia|].
      reflexivity.
Qed.

Lemma X22_witness :
  whitespace_only " "
  /\ record_of_line (clock 0) "t1, 10,12,9,11,100"
     = row "t1" "10" "12" "9" "11" "100".
Proof.
  assert (Hb : whitespace_only " ")
    by (apply ws_one; [reflexivity|apply ws_empty]).
  split; [exact Hb|].
  exact (eq_trans
           (X22_white_space_after_a_comma (clock 0) "t1" " " "10,12,9,11,100" Hb)
           eq_refl).
Defined.

(* ================================================================= *)
(** ** The objects of the JSON text sent *)

Module JsonFacts.
Import JS Chat Outcome JSFacts.
Local Open Scope string_scope.

Lemma plain_app a b : plain (a ++ b) = (plain a && plain b)%bool.
Proof.
  induction a as [|c a IH]; [reflexivity|].
  cbn [String.append plain]. rewrite IH. now rewrite andb_assoc.
Qed.

Lemma plain_substring i n s : plain s = true -> plain (substring i n s) = true.
Proof.
  revert i n. induction s as [|c s IH]; intros i n H.
  - destruct i, n; reflexivity.
  - cbn [plain] in H. apply andb_true_iff in H. destruct H as [Hc Hs].
    destruct i as [|i].
    + destruct n as [|n]; [reflexivity|].
      cbn [substring plain]. rewrite Hc. now apply IH.
    + cbn [substring]. now apply IH.
Qed.

Lemma plain_zeros n : plain (zeros n) = true.
Proof. induction n as [|n IH]; [reflexivity|]. cbn [zeros plain]. exact IH. Qed.

Lemma plain_decimal_of_N n : plain (decimal_of_N n) = true.
Proof.
  unfold decimal_of_N, NilZero.string_of_uint.
  assert (H : forall u, plain (NilEmpty.string_of_uint u) = true).
  { induction u; cbn [NilEmpty.string_of_uint plain]; trivial. }
  destruct (N.to_uint n); try reflexivity; apply H.
Qed.

Lemma plain_format_decimal s n k : plain (format_decimal s n k) = true.
Proof.
  unfold format_decimal.
  repeat match goal with
         | |- context [if ?b then _ else _] => destruct b
         end;
    repeat rewrite plain_app;
    repeat rewrite plain_substring by apply plain_decimal_of_N;
    repeat rewrite plain_decimal_of_N;
    repeat rewrite plain_zeros; reflexivity.
Qed.

Lemma plain_stringify_number x : plain (stringify_number x) = true.
Proof.
  destruct x as [sg|sg| |sg m e]; try reflexivity.
  cbn [stringify_number Number_toString].
  destruct (ratio_of m e) as [num den].
  destruct (shortest _ _ _ _ _ _) as [[s n'] k].
  rewrite plain_app, plain_format_decimal. now destruct sg.
Qed.

(** Outside a string, a plain text holds no object and ends outside a
    string. *)
Lemma count_plain a b :
  plain a = true ->
  count_objects_from false false (a ++ b) = count_objects_from false false b.
Proof.
  induction a as [|c a IH]; intros H; [reflexivity|].
  cbn [plain] in H. apply andb_true_iff in H. destruct H as [H Ha].
  apply andb_true_iff in H. destruct H as [H1 H2].
  apply negb_true_iff in H1, H2.
  cbn [String.append count_objects_from]. rewrite H1, H2. now apply IH.
Qed.

(** Inside a string, the escape of one character is passed and the scan is
    still inside the string. *)
Lemma count_quote_char c b :
  count_objects_from true false (quote_char c ++ b)
  = count_objects_from true false b.
Proof.
  destruct c as [[] [] [] [] [] [] [] []]; reflexivity.
Qed.

Lemma count_quote_chars s b :
  count_objects_from true false (quote_chars s ++ b)
  = count_objects_from true false b.
Proof.
  induction s as [|c s IH]; [reflexivity|].
  cbn [quote_chars]. rewrite append_assoc, count_quote_char. exact IH.
Qed.

(** A quoted string holds no object, whatever it quotes. *)
Lemma count_QuoteJSONString s b :
  count_objects_from false false (QuoteJSONString s ++ b)
  = count_objects_from false false b.
Proof.
  unfold QuoteJSONString. rewrite !append_assoc.
  change (quote ++ quote_chars s ++ quote ++ b)
    with (String (ascii_of_N 34) (quote_chars s ++ String (ascii_of_N 34) b)).
  cbn [count_objects_from]. change (code (ascii_of_N 34) =? 34)%N with true.
  cbv iota. rewrite count_quote_chars. reflexivity.
Qed.

(** The text of a record holds one object. *)
Lemma count_stringify_record d b :
  count_objects_from false false (stringify_record d ++ b)
  = S (count_objects_from false false b).
Proof.
  unfold stringify_record. rewrite !append_assoc.
  change ("{" ++ ?x) with (String "{" x).
  cbn [count_objects_from].
  change (code "{" =? 34)%N with false. change (code "{" =? 123)%N with true.
  cbv iota. f_equal.
  repeat first
    [ rewrite count_QuoteJSONString
    | rewrite (count_plain (stringify_number _)) by apply plain_stringify_number
    | rewrite (count_plain ":") by reflexivity
    | rewrite (count_plain ",") by reflexivity
    | rewrite (count_plain "}") by reflexivity ].
  reflexivity.
Qed.

Lemma count_join records b :
  count_objects_from false false
    (join "," (map stringify_record records) ++ b)
  = (List.length records + count_objects_from false false b)%nat.
Proof.
  induction records as [|d records IH]; [reflexivity|].
  destruct records as [|d' records].
  - cbn [map join List.length]. now rewrite count_stringify_record.
  - change (join "," (map stringify_record (d :: d' :: records)))
      with (stringify_record d ++ "," ++ join "," (map stringify_record (d' :: records))).
    rewrite !append_assoc, count_stringify_record.
    rewrite (count_plain ",") by reflexivity.
    rewrite IH. reflexivity.
Qed.

(** The JSON text of the records holds as many objects as there are
    records. *)
Lemma count_objects_JSON_stringify records :
  count_objects (JSON_stringify records) = List.length records.
Proof.
  unfold count_objects, JSON_stringify.
  rewrite (count_plain "[") by reflexivity.
  rewrite count_join. cbn. lia.
Qed.

End JsonFacts.

Import JS Chat Outcome View Scenario JSFacts ArrayFacts ChatFacts MoreFacts JsonFacts.
Local Open Scope string_scope.
Local Open Scope list_scope.

(** X16.  The preview and the request agree on the rows: for a selected
    file with a header line, [uploadCSV] issues one request, to the analyze
    endpoint, whose [ohlc_json] field is the JSON text of the converted
    records, and that text holds as many objects as the smaller of the
    [totalLines] of the preview of the file and 50. *)
Theorem X16_rows_previewed_and_sent (env : Env) (file : File) (text : string)
    (w : World) :
  csvFile (state w) = Some file ->
  File_text file = Some text ->
  lines_of text <> [] ->
  exists p req ohlc_json,
    csvPreview (state (snd (handleCsvFileChange (Some file) w))) = Some p
    /\ requests (snd (uploadCSV env w)) = requests w ++ [req]
    /\ url req = "http://localhost:8000/analyze"
    /\ body req
       = [("question", question_of (input (state w)));
          ("ohlc_json", ohlc_json)]
    /\ ohlc_json
       = JSON_stringify (ohlcData (now env) (linesToProcess (lines_of text)))
    /\ count_objects ohlc_json = Nat.min (Z.to_nat (totalLines p)) 50.
Proof.
  intros Hf Ht Hl.
  rewrite handleCsvFileChange_run, Ht, (uploadCSV_run env w file Hf), Ht.
  destruct (lines_of text) as [|line0 others] eqn:E; [contradiction|].
  cbv zeta.
  set (records := ohlcData (now env) (linesToProcess (line0 :: others))).
  eexists _, (analyze_request (input (state w)) records), _.
  split; [reflexivity|]. split; [|split; [reflexivity|split; [reflexivity|split; [reflexivity|]]]].
  - cbn [snd]. destruct (fetch_outcome env _) as [res|]; [|reflexivity].
    destruct (json res); reflexivity.
  - rewrite count_objects_JSON_stringify. subst records. cbn [totalLines].
    unfold ohlcData. rewrite length_map_from, linesToProcess_skipn, dataLines_tl.
    cbn [tl]. rewrite length_skipn. change minLines with 50%nat.
    cbn [List.length]. lia.
Qed.

Lemma X16_witness :
  let w := at_start (state_with (Some (file_of (csv_rows 60))) "") in
  lines_of (csv_rows 60) <> []
  /\ exists p req ohlc_json,
       csvPreview
         (state (snd (handleCsvFileChange (Some (file_of (csv_rows 60))) w)))
       = Some p
       /\ totalLines p = 60%Z
       /\ requests (snd (uploadCSV offline w)) = [req]
       /\ In ("ohlc_json", ohlc_json) (body req)
       /\ count_objects ohlc_json = 50%nat.
Proof.
  intros w.
  assert (Hl : lines_of (csv_rows 60) <> []) by discriminate.
  split; [exact Hl|].
  destruct (X16_rows_previewed_and_sent offline (file_of (csv_rows 60))
              (csv_rows 60) w eq_refl eq_refl Hl)
    as (p & req & ohlc_json & Hp & Hreq & _ & Hbody & _ & Hcount).
  exists p, req, ohlc_json.
  assert (Ht : totalLines p = 60%Z).
  { cbn in Hp. injection Hp as <-. reflexivity. }
  split; [exact Hp|]. split; [exact Ht|]. split; [exact Hreq|].
  split; [rewrite Hbody; right; now left|].
  rewrite Ht in Hcount. exact Hcount.
Defined.

(* ================================================================= *)
(** ** The window of rows and the order of the range *)

Import JS Chat Outcome View Scenario JSFacts ArrayFacts NumberFacts ChatFacts
       MoreFacts ParseFacts.
Local Open Scope string_scope.
Local Open Scope list_scope.

Lemma lines_of_one_line r :
  ~ whitespace_only r -> split LF r = [r] -> lines_of r = [r].
Proof.
  intros Hn Hs. unfold lines_of. rewrite Hs. cbn [filter].
  destruct (truthy_string (trim r)) eqn:E; [reflexivity|].
  apply truthy_trim_false_iff in E. contradiction.
Qed.

(** X23.  The selection is a window that slides: when a row (a line that is
    not blank) is appended to the text, the new selection is the old one
    with the row added at the end, and, once the file had 50 data lines or
    more, without its first line. *)
Theorem X23_sliding_window (text line0 r : string) (data : list string) :
  lines_of text = line0 :: data ->
  ~ whitespace_only r ->
  split LF r = [r] ->
  let before := linesToProcess (lines_of text) in
  let after := linesToProcess (lines_of (text ++ nl ++ r)) in
  ((List.length data < 50)%nat -> after = before ++ [r])
  /\ ((50 <= List.length data)%nat -> after = tl before ++ [r]).
Proof.
  intros Hl Hn Hs before after. subst before after.
  change (text ++ nl ++ r)%string with (text ++ String LF r)%string.
  rewrite lines_of_app, (lines_of_one_line r Hn Hs), Hl.
  rewrite !linesToProcess_skipn, !dataLines_tl.
  change minLines with 50%nat. cbn [tl app].
  rewrite length_app. cbn [List.length]. split; intros H.
  - replace (List.length data + 1 - 50)%nat with 0%nat by lia.
    replace (List.length data - 50)%nat with 0%nat by lia. reflexivity.
  - replace (List.length data + 1 - 50)%nat
      with (S (List.length data - 50)) by lia.
    rewrite skipn_app.
    replace (S (List.length data - 50) - List.length data)%nat with 0%nat by lia.
    cbn [skipn]. f_equal.
    generalize (List.length data - 50)%nat as k. clear.
    intros k. revert data. induction k as [|k IH]; intros data.
    + destruct data; reflexivity.
    + destruct data as [|a data]; [reflexivity|]. cbn [skipn]. apply IH.
Qed.

Lemma X23_witness :
  ~ whitespace_only "r50,1,3,0.5,2,7"
  /\ (50 <= List.length (data_of (csv_rows 50)))%nat
  /\ hd_error (linesToProcess (lines_of (csv_rows 50))) = Some "r0,1,3,0.5,2,7"
  /\ hd_error (linesToProcess (lines_of (csv_rows 50 ++ nl ++ "r50,1,3,0.5,2,7")))
     = Some "r1,1,3,0.5,2,7"
  /\ last (linesToProcess (lines_of (csv_rows 50 ++ nl ++ "r50,1,3,0.5,2,7"))) ""
     = "r50,1,3,0.5,2,7".
Proof.
  assert (Hn : ~ whitespace_only "r50,1,3,0.5,2,7").
  { intros H. apply trim_empty_iff in H. discriminate H. }
  assert (H50 : (50 <= List.length (data_of (csv_rows 50)))%nat)
    by (vm_compute; lia).
  destruct (X23_sliding_window (csv_rows 50) header "r50,1,3,0.5,2,7"
              (data_of (csv_rows 50)) eq_refl Hn eq_refl) as [_ Hslide].
  specialize (Hslide H50).
  split; [exact Hn|]. split; [exact H50|]. split; [reflexivity|].
  rewrite Hslide. split; reflexivity.
Defined.

Lemma Math_min_not_nan values :
  values <> [] -> Forall (fun x => is_nan x = false) values ->
  is_nan (Math_min values) = false.
Proof.
  intros Hne Hv. destruct (Math_min_lowest values Hne Hv) as [Hin _].
  exact (proj1 (Forall_forall _ _) Hv _ Hin).
Qed.

Lemma Math_max_not_nan values :
  values <> [] -> Forall (fun x => is_nan x = false) values ->
  is_nan (Math_max values) = false.
Proof.
  intros Hne Hv. destruct (Math_max_highest values Hne Hv) as [Hin _].
  exact (proj1 (Forall_forall _ _) Hv _ Hin).
Qed.

Lemma converted_fields_not_nan clk selected :
  Forall (fun x => is_nan x = false) (map low (ohlcData clk selected))
  /\ Forall (fun x => is_nan x = false) (map high (ohlcData clk selected)).
Proof.
  unfold ohlcData. generalize 0%nat.
  induction selected as [|line selected IH]; intros i; cbn [map_from map].
  - split; constructor.
  - destruct (IH (S i)) as [Hlow Hhigh].
    split; constructor; trivial; apply or_zero_not_nan.
Qed.

(** X2.  When, in every converted record, the low is not above the high,
    the price range of the summary is in order: its lower end is not above
    its upper end. *)
Theorem X2_range_in_order (clk : nat -> string) (selected : list string) :
  selected <> [] ->
  let records := ohlcData clk selected in
  (forall r, In r records -> le (low r) (high r)) ->
  le (Math_min (map low records)) (Math_max (map high records)).
Proof.
  intros Hne records Hrow.
  destruct (converted_fields_not_nan clk selected) as [Hlow Hhigh].
  fold records in Hlow, Hhigh.
  assert (Hrec : exists r0 rest, records = r0 :: rest).
  { subst records. unfold ohlcData. destruct selected; [contradiction|].
    cbn [map_from]. eauto. }
  destruct Hrec as (r0 & rest & Hr).
  assert (Hl : map low records <> []) by (rewrite Hr; discriminate).
  assert (Hh : map high records <> []) by (rewrite Hr; discriminate).
  destruct (Math_min_lowest _ Hl Hlow) as [_ Hmin].
  destruct (Math_max_highest _ Hh Hhigh) as [_ Hmax].
  assert (Hin : In r0 records) by (rewrite Hr; now left).
  pose proof (proj1 (Forall_forall _ _) Hlow _ (in_map low _ _ Hin)) as Nl.
  pose proof (proj1 (Forall_forall _ _) Hhigh _ (in_map high _ _ Hin)) as Nh.
  apply (NumberFacts.le_trans _ (low r0) _);
    [now apply Math_min_not_nan|exact Nl|now apply Math_max_not_nan| |].
  - apply Hmin. now apply in_map.
  - apply (NumberFacts.le_trans _ (high r0) _);
      [exact Nl|exact Nh|now apply Math_max_not_nan|now apply Hrow|].
    apply Hmax. now apply in_map.
Qed.

Lemma X2_witness :
  ["t1,10,12,9,11,100"; "t2,11,13,10,12,110"] <> []
  /\ le (Math_min (map low (ohlcData clock
                              ["t1,10,12,9,11,100"; "t2,11,13,10,12,110"])))
        (Math_max (map high (ohlcData clock
                               ["t1,10,12,9,11,100"; "t2,11,13,10,12,110"]))).
Proof.
  assert (Hne : ["t1,10,12,9,11,100"; "t2,11,13,10,12,110"] <> [])
    by discriminate.
  split; [exact Hne|].
  apply (X2_range_in_order clock _ Hne).
  intros r [<-|[<-|[]]]; reflexivity.
Defined.
